(** * Activity index of the indexer: a shallow embedding

    Source: packages/indexer/src/elasticsearch/indexes/activities/index.ts

    The module talks to an Elasticsearch cluster, reads the system clock,
    writes to a logger and mutates the activity objects it is handed.  The
    embedding threads a [World] through every operation: the state of the
    outside (store and clock), the heap of activity objects, and the
    requests and log lines issued so far.  A JavaScript exception is a
    [Throw] completion; the world survives it. *)

From Equations Require Import Equations.
From Stdlib Require Import ZArith Ascii String DecimalString.
From stdpp Require Import gmap strings list fin_maps.

#[local] Set Warnings "-register-all".

Local Open Scope string_scope.
Local Open Scope list_scope.

(** ** JavaScript values used by the module *)

(** The query trees, sort specifications and script parameters are
    untyped object literals in the source. *)
Inductive Json : Type :=
| JNull
| JBool (b : bool)
| JNum (z : Z)
| JStr (s : string)
| JArr (items : list Json)
| JObj (fields : list (string * Json)).

(** [x ?? null] and optional strings going into an object literal. *)
Definition JOpt (o : option string) : Json :=
  match o with Some s => JStr s | None => JNull end.

(** A thrown error: its [name] and [message], and what the module
    inspects of it, [error.meta?.meta?.aborted] and
    [error.meta?.body?.error?.caused_by?.type]. *)
Record JsError : Type := mkError {
  name : string;
  message : string;
  meta_aborted : bool;
  caused_by_type : option string;
}.

(** [new Error(msg)]: no [meta] at all. *)
Definition Error (msg : string) : JsError :=
  {| name := "Error"; message := msg; meta_aborted := false; caused_by_type := None |}.

(** The error of a property access on [undefined] or [null]. *)
Definition TypeError (msg : string) : JsError :=
  {| name := "TypeError"; message := msg; meta_aborted := false; caused_by_type := None |}.

(** [`${error}`], that is [Error.prototype.toString]. *)
Definition toString (error : JsError) : string :=
  match name error, message error with
  | EmptyString, msg => msg
  | nm, EmptyString => nm
  | nm, msg => nm +:+ ": " +:+ msg
  end.

Inductive Completion (A : Type) : Type :=
| Return (a : A)
| Throw (error : JsError).
Arguments Return {A} a.
Arguments Throw {A} error.

(** ** Strings *)

Definition lower_ascii (c : ascii) : ascii :=
  let n := nat_of_ascii c in
  if (65 <=? n)%nat && (n <=? 90)%nat then ascii_of_nat (n + 32) else c.

(** [String.prototype.toLowerCase] on the ASCII letters. *)
Fixpoint toLowerCase (s : string) : string :=
  match s with
  | EmptyString => EmptyString
  | String c rest => String (lower_ascii c) (toLowerCase rest)
  end.

(** [s.split(sep)] for a one-character separator: [acc] holds the
    characters of the current piece, most recent first. *)
Fixpoint split_go (sep : ascii) (acc : string) (s : string) : list string :=
  match s with
  | EmptyString => [String.rev acc]
  | String c rest =>
      if Ascii.eqb c sep then String.rev acc :: split_go sep EmptyString rest
      else split_go sep (String c acc) rest
  end.

(** [_.split(x, "_")]; lodash turns an [undefined] first argument into
    the empty string, so [x] is an option. *)
Definition lodash_split (x : option string) (sep : ascii) : list string :=
  split_go sep EmptyString (default EmptyString x).

(** ** Documents, requests and responses *)

Definition Time : Type := Z.
Bind Scope Z_scope with Time.

Inductive ActivityType : Type :=
| sale | ask | transfer | mint | bid | bid_cancel | ask_cancel.

Record ActivityDocument : Type := mkActivity {
  id : string;
  type : ActivityType;
  contract : string;
  fromAddress : string;
  toAddress : option string;
  timestamp : Z;
  createdAt : Time;
  indexedAt : option Time;
}.

Definition set_indexedAt (t : Time) (a : ActivityDocument) : ActivityDocument :=
  {| id := id a; type := type a; contract := contract a;
     fromAddress := fromAddress a; toAddress := toAddress a;
     timestamp := timestamp a; createdAt := createdAt a;
     indexedAt := Some t |}.

(** One entry of a hit's [sort] array. *)
Inductive SortValue : Type :=
| SNum (z : Z)
| SStr (s : string)
| SNull.

(** How [Array.prototype.join] renders an element. *)
Definition sort_value_string (v : SortValue) : string :=
  match v with
  | SNum z => NilZero.string_of_int (Z.to_int z)
  | SStr s => s
  | SNull => EmptyString
  end.

Definition join (sep : string) (vs : list SortValue) : string :=
  String.concat sep (map sort_value_string vs).

Record Hit : Type := mkHit {
  _index : string;
  _source : ActivityDocument;
  sort : list SortValue;
}.

Record SearchResponse : Type := mkSearchResponse {
  took : Z;
  hits : list Hit;
}.

(** The second argument of [_search]. *)
Record SearchParams : Type := mkSearchParams {
  p_source : option (list string);
  p_query : option Json;
  p_sort : option (list Json);
  p_size : option Z;
  p_search_after : option (list string);
  p_track_total_hits : option bool;
}.

(** What reaches [elasticsearch.search]: [{ index: INDEX_NAME, ...params }]. *)
Record SearchRequest : Type := mkSearchRequest {
  r_index : string;
  r_params : SearchParams;
}.

Inductive BulkOp : Type := op_index | op_create | op_update | op_delete.

Record BulkAction : Type := mkBulkAction {
  a_op : BulkOp;
  a_index : string;
  a_id : string;
  a_retry_on_conflict : option nat;
}.

Inductive BulkLine : Type :=
| LAction (a : BulkAction)
| LDocument (d : ActivityDocument)
| LScript (source : string) (params : list (string * Json)).

Record BulkRequest : Type := mkBulkRequest {
  b_body : list BulkLine;
  b_filter_path : option string;
  b_ignore : list Z;
}.

(** One entry of [response.items]: [{ <op>: { status, error } }]. *)
Record BulkItem : Type := mkBulkItem {
  i_op : BulkOp;
  i_status : option Z;
  i_error : option string;
}.

(** [errors] is the truthiness of [response?.errors]. *)
Record BulkResponse : Type := mkBulkResponse {
  errors : bool;
  items : list BulkItem;
}.

(** [item.update?.status]: undefined unless the item is an update. *)
Definition update_status (item : BulkItem) : option Z :=
  match i_op item with
  | op_update => i_status item
  | _ => None
  end.

Inductive LogLevel : Type := log_info | log_warn | log_error.

(** A logger call; of the stringified payload the topic and the message
    are kept. *)
Record LogEntry : Type := mkLog {
  l_level : LogLevel;
  l_topic : string;
  l_message : string;
}.

(** The first argument of [search]. *)
Inductive SortBy : Type := by_timestamp | by_createdAt.

Record TokenRef : Type := mkTokenRef {
  token_contract : string;
  tokenId : string;
}.

Record SearchArgs : Type := mkSearchArgs {
  types : option (list ActivityType);
  tokens : option (list TokenRef);
  contracts : option (list string);
  collections : option (list string);
  sources : option (list Z);
  users : option (list string);
  startTimestamp : option Z;
  endTimestamp : option Z;
  sortBy : option SortBy;
  limit : option Z;
  continuation : option string;
  continuationAsInt : option bool;
}.

Module SearchResult.
Record t : Type := mk {
  activities : list ActivityDocument;
  continuation : option string;
}.
End SearchResult.

(** Of a [CollectionsEntity] the module reads [id], [name] and
    [metadata?.imageUrl]. *)
Record CollectionsEntity : Type := mkCollection {
  collection_id : string;
  collection_name : string;
  metadata_imageUrl : option string;
}.

Record TokenData : Type := mkTokenData {
  token_name : option string;
  token_image : option string;
  token_media : option string;
}.

Record CollectionData : Type := mkCollectionData {
  data_name : option string;
  data_image : option string;
}.

(** ** Truthiness *)

(** [xs?.length] as a condition. *)
Definition has_length {A : Type} (xs : option (list A)) : bool :=
  match xs with
  | Some (_ :: _) => true
  | _ => false
  end.

(** An optional number as a condition: [undefined] and [0] are falsy. *)
Definition truthy_number (n : option Z) : bool :=
  match n with
  | Some z => negb (z =? 0)%Z
  | None => false
  end.

(** An optional string as a condition: [null], [undefined] and the empty
    string are falsy. *)
Definition truthy_string (s : option string) : bool :=
  match s with
  | Some EmptyString => false
  | Some _ => true
  | None => false
  end.

Definition truthy_bool (b : option bool) : bool := default false b.

(** ** Object literals of the query language *)

Definition activity_type_name (t : ActivityType) : string :=
  match t with
  | sale => "sale"
  | ask => "ask"
  | transfer => "transfer"
  | mint => "mint"
  | bid => "bid"
  | bid_cancel => "bid_cancel"
  | ask_cancel => "ask_cancel"
  end.

Definition obj1 (key : string) (value : Json) : Json := JObj [(key, value)].

Definition q_terms (field : string) (values : list Json) : Json :=
  obj1 "terms" (obj1 field (JArr values)).

Definition q_term (field : string) (value : Json) : Json :=
  obj1 "term" (obj1 field value).

Definition q_exists (field : string) : Json :=
  obj1 "exists" (obj1 "field" (JStr field)).

(** ** The outside world *)

(** The collaborators the module imports: the Elasticsearch client, the
    clock behind [new Date()], [getNetworkName] and the continuation
    helpers of [@/common/utils].  [Env] is the state of the store and of
    the clock, which the module only ever observes through these calls. *)
Record Platform : Type := mkPlatform {
  Env : Type;
  es_search : Env -> SearchRequest -> Completion SearchResponse * Env;
  es_bulk : Env -> BulkRequest -> Completion BulkResponse * Env;
  new_Date : Env -> Time * Env;
  getNetworkName : string;
  splitContinuation : string -> Completion (list string);
  buildContinuation : string -> string;
}.

(** Activity objects live on a heap: [save] receives references. *)
Abbreviation loc := nat (only parsing).

Record World (P : Platform) : Type := mkWorld {
  env : Env P;
  heap : gmap loc ActivityDocument;
  searches : list SearchRequest;
  bulks : list BulkRequest;
  logs : list LogEntry;
}.
Arguments mkWorld {P} env heap searches bulks logs.
Arguments env {P} w.
Arguments heap {P} w.
Arguments searches {P} w.
Arguments bulks {P} w.
Arguments logs {P} w.

(** ** The effect monad *)

Definition M (P : Platform) (A : Type) : Type := World P -> Completion A * World P.

Definition ret {P : Platform} {A : Type} (a : A) : M P A := fun w => (Return a, w).

Definition throw {P : Platform} {A : Type} (e : JsError) : M P A := fun w => (Throw e, w).

Definition bind {P : Platform} {A B : Type} (m : M P A) (k : A -> M P B) : M P B :=
  fun w =>
    match m w with
    | (Return a, w') => k a w'
    | (Throw e, w') => (Throw e, w')
    end.

(** [try { body } catch (error) { handler }] *)
Definition try_catch {P : Platform} {A : Type}
  (body : M P A) (handler : JsError -> M P A) : M P A :=
  fun w =>
    match body w with
    | (Return a, w') => (Return a, w')
    | (Throw e, w') => handler e w'
    end.

Declare Scope js_scope.
Delimit Scope js_scope with js.
Notation "'let*' x := m 'in' k" := (bind m (fun x => k))
  (at level 10, x name, m at level 100, k at level 200) : js_scope.
Notation "m ;; k" := (bind m (fun _ => k))
  (at level 100, k at level 200, right associativity) : js_scope.
Local Open Scope js_scope.

Section Effects.
Context {P : Platform}.

Definition logger (level : LogLevel) (topic msg : string) : M P unit :=
  fun w =>
    (Return tt,
     mkWorld (env w) (heap w) (searches w) (bulks w)
             (logs w ++ [mkLog level topic msg])).

(** [await elasticsearch.search(request)] *)
Definition elasticsearch_search (request : SearchRequest) : M P SearchResponse :=
  fun w =>
    let '(result, e) := es_search P (env w) request in
    (result, mkWorld e (heap w) (searches w ++ [request]) (bulks w) (logs w)).

(** [await elasticsearch.bulk(request)] *)
Definition elasticsearch_bulk (request : BulkRequest) : M P BulkResponse :=
  fun w =>
    let '(result, e) := es_bulk P (env w) request in
    (result, mkWorld e (heap w) (searches w) (bulks w ++ [request]) (logs w)).

(** [new Date()] *)
Definition Date_now : M P Time :=
  fun w =>
    let '(t, e) := new_Date P (env w) in
    (Return t, mkWorld e (heap w) (searches w) (bulks w) (logs w)).

(** The objects behind an array of references, as the client
    serializes them. *)
Definition deref (ls : list loc) : M P (list ActivityDocument) :=
  fun w => (Return (omap (fun l => heap w !! l) ls), w).

(** A call to a pure helper that may throw. *)
Definition lift {A : Type} (c : Completion A) : M P A := fun w => (c, w).

(** [activity.indexedAt = t] through the reference [l]. *)
Definition write_indexedAt (l : loc) (t : Time) : M P unit :=
  fun w =>
    (Return tt,
     mkWorld (env w) (alter (set_indexedAt t) l (heap w)) (searches w) (bulks w) (logs w)).

Fixpoint forEach {A : Type} (xs : list A) (f : A -> M P unit) : M P unit :=
  match xs with
  | [] => ret tt
  | x :: rest => f x ;; forEach rest f
  end.
End Effects.

(** ** The module *)

Definition retryableError (error : JsError) : bool :=
  meta_aborted error
  || bool_decide (caused_by_type error = Some "node_not_connected_exception").

Section Activities.
Context (P : Platform).

Definition INDEX_NAME : string := getNetworkName P +:+ ".activities".

(** [params.track_total_hits = params.track_total_hits ?? false] *)
Definition default_track_total_hits (params : SearchParams) : SearchParams :=
  {| p_source := p_source params; p_query := p_query params;
     p_sort := p_sort params; p_size := p_size params;
     p_search_after := p_search_after params;
     p_track_total_hits := Some (default false (p_track_total_hits params)) |}.

Equations? _search (params : SearchParams) (retries : nat) (debug : bool)
  (w : World P) : Completion SearchResponse * World P by wf (4 - retries) lt :=
_search params0 retries debug w :=
  let params := default_track_total_hits params0 in
  match elasticsearch_search (mkSearchRequest INDEX_NAME params) w with
  | (Return esResult, w1) =>
      if (0 <? retries)%nat || debug
      then (logger log_info "_search" "" ;; ret esResult) w1
      else (Return esResult, w1)
  | (Throw error, w1) =>
      if retryableError error then
        match logger log_warn "_search" "Retrying..." w1 with
        | (_, w2) =>
            match le_dec retries 3 with
            | left _ => _search params (retries + 1) debug w2
            | right _ =>
                (logger log_error "_search" "Max retries reached." ;;
                 throw (Error "Could not perform search.")) w2
            end
        end
      else
        (logger log_error "_search" "Unexpected error." ;; throw error) w1
  end.
Proof. lia. Qed.

(** *** save *)

Definition save_body (upsert : bool) (docs : list ActivityDocument) : list BulkLine :=
  flat_map
    (fun activity =>
       [LAction (mkBulkAction (if upsert then op_index else op_create)
                              INDEX_NAME (id activity) None);
        LDocument activity])
    docs.

(** [activities] is an array of references; the defaults of the source
    are [upsert = true] and [overrideIndexedAt = true]. *)
Definition save (activities : list loc) (upsert overrideIndexedAt : bool) : M P unit :=
  try_catch
    ((if overrideIndexedAt
      then forEach activities
             (fun activity => let* now := Date_now in write_indexedAt activity now)
      else ret tt) ;;
     let* docs := deref activities in
     let* response := elasticsearch_bulk (mkBulkRequest (save_body upsert docs) None []) in
     if errors response
     then (if upsert then logger log_error "save" "save activities errors" else ret tt)
     else ret tt)
    (fun error =>
       logger log_error "save" ("error saving activities. error=" +:+ toString error) ;;
       throw error).

(** *** search *)

Definition search_tokens_filter (params : SearchArgs) : Json :=
  let tokens := default [] (tokens params) in
  if bool_decide (length <$> contracts params = Some 1%nat)
  then q_terms "token.id" (map (fun token => JStr (tokenId token)) tokens)
  else
    obj1 "bool"
      (obj1 "should"
         (JArr
            (map
               (fun token =>
                  obj1 "bool"
                    (obj1 "must"
                       (JArr
                          [q_term "contract" (JStr (toLowerCase (token_contract token)));
                           q_term "token.id" (JStr (tokenId token))])))
               tokens))).

Definition search_users_filter (params : SearchArgs) : Json :=
  let users := map (fun user => JStr (toLowerCase user)) (default [] (users params)) in
  obj1 "bool"
    (obj1 "should" (JArr [q_terms "fromAddress" users; q_terms "toAddress" users])).

Definition q_range (bound : string) (value : Z) : Json :=
  obj1 "range"
    (obj1 "timestamp" (JObj [(bound, JNum value); ("format", JStr "epoch_second")])).

(** The successive [esQuery.bool.filter.push(...)]. *)
Definition search_filter (params : SearchArgs) : list Json :=
  (if has_length (types params)
   then [q_terms "type"
           (map (fun t => JStr (activity_type_name t)) (default [] (types params)))]
   else [])
  ++ (if has_length (collections params)
      then [q_terms "collection.id"
              (map (fun c => JStr (toLowerCase c)) (default [] (collections params)))]
      else [])
  ++ (if has_length (contracts params)
      then [q_terms "contract"
              (map (fun c => JStr (toLowerCase c)) (default [] (contracts params)))]
      else [])
  ++ (if has_length (sources params)
      then [q_terms "order.sourceId" (map JNum (default [] (sources params)))]
      else [])
  ++ (if has_length (tokens params) then [search_tokens_filter params] else [])
  ++ (if has_length (users params) then [search_users_filter params] else [])
  ++ (if truthy_number (startTimestamp params)
      then [q_range "gte" (default 0%Z (startTimestamp params))]
      else [])
  ++ (if truthy_number (endTimestamp params)
      then [q_range "lt" (default 0%Z (endTimestamp params))]
      else []).

Definition search_esQuery (params : SearchArgs) : Json :=
  obj1 "bool" (obj1 "filter" (JArr (search_filter params))).

Definition search_searchAfter (params : SearchArgs) : M P (list string) :=
  if truthy_string (continuation params) then
    let continuation := default EmptyString (continuation params) in
    if truthy_bool (continuationAsInt params) then ret [continuation]
    else
      let* parts := lift (splitContinuation P continuation) in
      ret (lodash_split (head parts) "_")
  else ret [].

Definition sort_primary (params : SearchArgs) : Json :=
  match sortBy params with
  | Some by_timestamp =>
      obj1 "timestamp" (JObj [("order", JStr "desc"); ("format", JStr "epoch_second")])
  | _ => obj1 "createdAt" (obj1 "order" (JStr "desc"))
  end.

Definition sort_tie_break : Json := obj1 "id" (obj1 "order" (JStr "desc")).

Definition search_esSort (params : SearchArgs) (searchAfter : list string) : list Json :=
  [sort_primary params]
  ++ (* Backward compatibility *)
     (if negb (length searchAfter =? 1)%nat && negb (truthy_bool (continuationAsInt params))
      then [sort_tie_break]
      else []).

Definition search_params (params : SearchArgs) (searchAfter : list string) : SearchParams :=
  {| p_source := None;
     p_query := Some (search_esQuery params);
     p_sort := Some (search_esSort params searchAfter);
     p_size := limit params;
     p_search_after := if (0 <? length searchAfter)%nat then Some searchAfter else None;
     p_track_total_hits := None |}.

(** [hits.length === params.limit] *)
Definition page_is_full (params : SearchArgs) (hits : list Hit) : bool :=
  bool_decide (limit params = Some (Z.of_nat (length hits))).

Definition search_continuation (params : SearchArgs) (hits : list Hit) : option string :=
  if page_is_full params hits then
    match last hits with
    | Some lastResult =>
        let lastResultSortValue := join "_" (sort lastResult) in
        if truthy_bool (continuationAsInt params)
        then Some lastResultSortValue
        else Some (buildContinuation P lastResultSortValue)
    | None => None
    end
  else None.

Definition search (params : SearchArgs) (debug : bool) : M P SearchResult.t :=
  let* searchAfter := search_searchAfter params in
  try_catch
    (let* esResult := _search (search_params params searchAfter) 0 debug in
     let activities := map _source (hits esResult) in
     let continuation := search_continuation params (hits esResult) in
     ret (SearchResult.mk activities continuation))
    (fun error => logger log_error "search" "" ;; throw error).

(** *** Propagation of denormalized fields *)

(** [item.update?.status !== 400] *)
Definition status_not_400 (item : BulkItem) : bool :=
  negb (bool_decide (update_status item = Some 400%Z)).

Definition scan_params (query : Json) : SearchParams :=
  {| p_source := Some ["id"];
     p_query := Some query;
     p_sort := None;
     p_size := Some 1000%Z;
     p_search_after := None;
     p_track_total_hits := None |}.

Definition set_collection_script : string :=
  "ctx._source.collection = [:]; ctx._source.collection.id = params.collection_id; ctx._source.collection.name = params.collection_name; ctx._source.collection.image = params.collection_image;".

Definition set_collection_params (collection : CollectionsEntity) : list (string * Json) :=
  [("collection_id", JStr (collection_id collection));
   ("collection_name", JStr (collection_name collection));
   ("collection_image", JOpt (metadata_imageUrl collection))].

Definition missing_collection_query (contract : string) (tokenId : Z) : Json :=
  obj1 "bool"
    (JObj
       [("must_not", JArr [q_exists "collection.id"]);
        ("must",
         JArr [q_term "contract" (JStr (toLowerCase contract));
               q_term "token.id" (JNum tokenId)])]).

Definition updateActivitiesMissingCollection
  (contract : string) (tokenId : Z) (collection : CollectionsEntity) : M P bool :=
  let keepGoing := false in
  let query := missing_collection_query contract tokenId in
  try_catch
    (let* esResult := _search (scan_params query) 0 false in
     let pendingUpdateActivities := map (fun hit => id (_source hit)) (hits esResult) in
     if (0 <? length pendingUpdateActivities)%nat then
       let bulkParams :=
         {| b_body :=
              flat_map
                (fun activityId =>
                   [LAction (mkBulkAction op_update INDEX_NAME activityId (Some 3%nat));
                    LScript set_collection_script (set_collection_params collection)])
                pendingUpdateActivities;
            b_filter_path := Some "items.*.error";
            b_ignore := [404%Z] |} in
       let* response := elasticsearch_bulk bulkParams in
       if errors response then
         let keepGoing := existsb status_not_400 (items response) in
         logger log_error "updateActivitiesMissingCollection" "Errors in response" ;;
         ret keepGoing
       else
         let keepGoing := (length pendingUpdateActivities =? 1000)%nat in
         ret keepGoing
     else ret keepGoing)
    (fun error =>
       if retryableError error then
         logger log_warn "updateActivitiesMissingCollection" "Unexpected error" ;;
         ret true
       else
         logger log_error "updateActivitiesMissingCollection" "Unexpected error" ;;
         throw error).

Definition collection_query
  (contract tokenId : string) (newCollection : CollectionsEntity) : Json :=
  obj1 "bool"
    (JObj
       [("must_not", JArr [q_term "collection.id" (JStr (collection_id newCollection))]);
        ("must",
         JArr [q_term "contract" (JStr (toLowerCase contract));
               q_term "token.id" (JStr tokenId)])]).

Definition updateActivitiesCollection
  (contract tokenId : string) (newCollection : CollectionsEntity)
  (oldCollectionId : string) : M P bool :=
  let keepGoing := false in
  let query := collection_query contract tokenId newCollection in
  try_catch
    (let* esResult := _search (scan_params query) 0 true in
     let pendingUpdateDocuments :=
       map (fun hit => (id (_source hit), _index hit)) (hits esResult) in
     if (0 <? length pendingUpdateDocuments)%nat then
       let bulkParams :=
         {| b_body :=
              flat_map
                (fun document =>
                   [LAction (mkBulkAction op_update (snd document) (fst document) (Some 3%nat));
                    LScript set_collection_script (set_collection_params newCollection)])
                pendingUpdateDocuments;
            b_filter_path := Some "items.*.error";
            b_ignore := [404%Z] |} in
       let* response := elasticsearch_bulk bulkParams in
       if errors response then
         let keepGoing := existsb status_not_400 (items response) in
         logger log_error "updateActivitiesCollection" "Errors in response" ;;
         ret keepGoing
       else
         let keepGoing := (length pendingUpdateDocuments =? 1000)%nat in
         ret keepGoing
     else ret keepGoing)
    (fun error =>
       if retryableError error then
         logger log_warn "updateActivitiesCollection" "Unexpected error" ;;
         ret true
       else
         logger log_error "updateActivitiesCollection" "Unexpected error" ;;
         throw error).

(** One entry of [should]: the field differs from the new value, or
    exists although the new value is empty. *)
Definition stale_clause (field : string) (value : option string) : Json :=
  obj1 "bool"
    (if truthy_string value
     then obj1 "must_not" (JArr [q_term field (JOpt value)])
     else obj1 "must" (JArr [q_exists field])).

Definition token_metadata_query (contract tokenId : string) (tokenData : TokenData) : Json :=
  let should :=
    [stale_clause "token.name" (token_name tokenData);
     stale_clause "token.image" (token_image tokenData);
     stale_clause "token.media" (token_media tokenData)] in
  obj1 "bool"
    (obj1 "filter"
       (obj1 "bool"
          (JObj
             [("must",
               JArr [q_term "contract" (JStr "0xb76fbbb30e31f2c3bdaa2466cfb1cfe39b220d06");
                     q_term "token.id" (JStr "7514")]);
              ("must_not", JArr [q_term "type" (JStr "bid")]);
              ("should", JArr should)]))).

Definition set_token_script : string :=
  "if (params.token_name == null) { ctx._source.token.remove('name') } else { ctx._source.token.name = params.token_name } if (params.token_image == null) { ctx._source.token.remove('image') } else { ctx._source.token.image = params.token_image } if (params.token_media == null) { ctx._source.token.remove('media') } else { ctx._source.token.media = params.token_media }".

Definition updateActivitiesTokenMetadata
  (contract tokenId : string) (tokenData : TokenData) : M P bool :=
  let keepGoing := false in
  let query := token_metadata_query contract tokenId tokenData in
  try_catch
    (let* esResult := _search (scan_params query) 0 false in
     let pendingUpdateDocuments :=
       map (fun hit => (id (_source hit), _index hit)) (hits esResult) in
     if (0 <? length pendingUpdateDocuments)%nat then
       let bulkParams :=
         {| b_body :=
              flat_map
                (fun document =>
                   [LAction (mkBulkAction op_update (snd document) (fst document) (Some 3%nat));
                    LScript set_token_script
                      [("token_name", JOpt (token_name tokenData));
                       ("token_image", JOpt (token_image tokenData));
                       ("token_media", JOpt (token_media tokenData))]])
                pendingUpdateDocuments;
            b_filter_path := Some "items.*.error";
            b_ignore := [404%Z] |} in
       let* response := elasticsearch_bulk bulkParams in
       if errors response then
         let keepGoing := existsb status_not_400 (items response) in
         logger log_error "updateActivitiesTokenMetadata" "Errors in response" ;;
         ret keepGoing
       else
         let keepGoing := (length pendingUpdateDocuments =? 1000)%nat in
         ret keepGoing
     else ret keepGoing)
    (fun error =>
       if retryableError error then
         logger log_warn "updateActivitiesTokenMetadata" "Unexpected error" ;;
         ret true
       else
         logger log_error "updateActivitiesTokenMetadata" "Unexpected error" ;;
         throw error).

Definition collection_metadata_query
  (collectionId : string) (collectionData : CollectionData) : Json :=
  let should :=
    [stale_clause "collection.name" (data_name collectionData);
     stale_clause "collection.image" (data_image collectionData)] in
  obj1 "bool"
    (JObj
       [("must", JArr [q_term "collection.id" (JStr (toLowerCase collectionId))]);
        ("filter", obj1 "bool" (obj1 "should" (JArr should)))]).

Definition set_collection_metadata_script : string :=
  "if (params.collection_name == null) { ctx._source.collection.remove('name') } else { ctx._source.collection.name = params.collection_name } if (params.collection_image == null) { ctx._source.collection.remove('image') } else { ctx._source.collection.image = params.collection_image }".

Definition updateActivitiesCollectionMetadata
  (collectionId : string) (collectionData : CollectionData) : M P bool :=
  let keepGoing := false in
  let query := collection_metadata_query collectionId collectionData in
  try_catch
    (let* esResult := _search (scan_params query) 0 true in
     let pendingUpdateDocuments :=
       map (fun hit => (id (_source hit), _index hit)) (hits esResult) in
     if (0 <? length pendingUpdateDocuments)%nat then
       let bulkParams :=
         {| b_body :=
              flat_map
                (fun document =>
                   [LAction (mkBulkAction op_update (snd document) (fst document) (Some 3%nat));
                    LScript set_collection_metadata_script
                      [("collection_name", JOpt (data_name collectionData));
                       ("collection_image", JOpt (data_image collectionData))]])
                pendingUpdateDocuments;
            b_filter_path := Some "items.*.error";
            b_ignore := [404%Z] |} in
       let* response := elasticsearch_bulk bulkParams in
       if errors response then
         let keepGoing := existsb status_not_400 (items response) in
         logger log_error "updateActivitiesCollectionMetadata" "Errors in response." ;;
         ret keepGoing
       else
         let keepGoing := (length pendingUpdateDocuments =? 1000)%nat in
         logger log_info "updateActivitiesCollectionMetadata" "Success." ;;
         ret keepGoing
     else ret keepGoing)
    (fun error =>
       if retryableError error then
         logger log_warn "updateActivitiesCollectionMetadata" "Unexpected error" ;;
         ret true
       else
         logger log_error "updateActivitiesCollectionMetadata" "Unexpected error" ;;
         throw error).

End Activities.

(** ** Vocabulary of the properties *)

(** The four propagation cases, as calls. *)
Inductive PropagationCall : Type :=
| MissingCollection (contract : string) (tokenId : Z) (collection : CollectionsEntity)
| CollectionReassignment (contract tokenId : string) (newCollection : CollectionsEntity)
    (oldCollectionId : string)
| TokenMetadata (contract tokenId : string) (tokenData : TokenData)
| CollectionMetadata (collectionId : string) (collectionData : CollectionData).

Section Vocabulary.
Context (P : Platform).

(** The request [_search] hands to the client on every attempt. *)
Definition search_request (params : SearchParams) : SearchRequest :=
  mkSearchRequest (INDEX_NAME P) (default_track_total_hits params).

(** The store fails every search with an error classified as retryable. *)
Definition always_transient : Prop :=
  forall e request, exists error e',
    es_search P e request = (Throw error, e') /\ retryableError error = true.

(** The requests a computation added to the search log. *)
Definition searches_sent {A : Type} (m : M P A) (w : World P) : list SearchRequest :=
  drop (length (searches w)) (searches (snd (m w))).

Definition bulks_sent {A : Type} (m : M P A) (w : World P) : list BulkRequest :=
  drop (length (bulks w)) (bulks (snd (m w))).

Definition logged {A : Type} (m : M P A) (w : World P) : list LogEntry :=
  drop (length (logs w)) (logs (snd (m w))).

Definition propagate (call : PropagationCall) : M P bool :=
  match call with
  | MissingCollection contract tokenId collection =>
      updateActivitiesMissingCollection P contract tokenId collection
  | CollectionReassignment contract tokenId newCollection oldCollectionId =>
      updateActivitiesCollection P contract tokenId newCollection oldCollectionId
  | TokenMetadata contract tokenId tokenData =>
      updateActivitiesTokenMetadata P contract tokenId tokenData
  | CollectionMetadata collectionId collectionData =>
      updateActivitiesCollectionMetadata P collectionId collectionData
  end.

Definition scan_query (call : PropagationCall) : Json :=
  match call with
  | MissingCollection contract tokenId _ => missing_collection_query contract tokenId
  | CollectionReassignment contract tokenId newCollection _ =>
      collection_query contract tokenId newCollection
  | TokenMetadata contract tokenId tokenData =>
      token_metadata_query contract tokenId tokenData
  | CollectionMetadata collectionId collectionData =>
      collection_metadata_query collectionId collectionData
  end.

(** The [debug] argument each case passes to [_search]. *)
Definition scan_debug (call : PropagationCall) : bool :=
  match call with
  | MissingCollection _ _ _ | TokenMetadata _ _ _ => false
  | CollectionReassignment _ _ _ _ | CollectionMetadata _ _ => true
  end.

(** Step 2 of a propagation call. *)
Definition scan (call : PropagationCall) : M P SearchResponse :=
  _search P (scan_params (scan_query call)) 0 (scan_debug call).

Definition update_script (call : PropagationCall) : BulkLine :=
  match call with
  | MissingCollection _ _ collection =>
      LScript set_collection_script (set_collection_params collection)
  | CollectionReassignment _ _ newCollection _ =>
      LScript set_collection_script (set_collection_params newCollection)
  | TokenMetadata _ _ tokenData =>
      LScript set_token_script
        [("token_name", JOpt (token_name tokenData));
         ("token_image", JOpt (token_image tokenData));
         ("token_media", JOpt (token_media tokenData))]
  | CollectionMetadata _ collectionData =>
      LScript set_collection_metadata_script
        [("collection_name", JOpt (data_name collectionData));
         ("collection_image", JOpt (data_image collectionData))]
  end.

(** The index a case addresses the update of a hit to. *)
Definition update_index (call : PropagationCall) (hit : Hit) : string :=
  match call with
  | MissingCollection _ _ _ => INDEX_NAME P
  | _ => _index hit
  end.

(** Step 3 of a propagation call, from the hits of the scan. *)
Definition bulk_update (call : PropagationCall) (hits : list Hit) : BulkRequest :=
  {| b_body :=
       flat_map
         (fun hit =>
            [LAction (mkBulkAction op_update (update_index call hit)
                                   (id (_source hit)) (Some 3%nat));
             update_script call])
         hits;
     b_filter_path := Some "items.*.error";
     b_ignore := [404%Z] |}.

(** The clock, read [k] times in a row from [e]. *)
Fixpoint env_after_reads (k : nat) (e : Env P) : Env P :=
  match k with
  | O => e
  | S k' => env_after_reads k' (snd (new_Date P e))
  end.

(** What the [k]-th next [new Date()] returns. *)
Definition reading (k : nat) (e : Env P) : Time :=
  fst (new_Date P (env_after_reads k e)).

(** The first statement of [save]. *)
Definition stamp (activities : list loc) (overrideIndexedAt : bool) : M P unit :=
  if overrideIndexedAt
  then forEach activities
         (fun activity => let* now := Date_now in write_indexedAt activity now)
  else ret tt.

(** The bulk write of [save], from the heap at the time of the call. *)
Definition save_request (activities : list loc) (upsert : bool) (w : World P) : BulkRequest :=
  mkBulkRequest (save_body P upsert (omap (fun l => heap w !! l) activities)) None [].
End Vocabulary.

(** [o.key] on an object literal. *)
Definition field (key : string) (o : Json) : option Json :=
  match o with
  | JObj fields => snd <$> find (fun kv => String.eqb (fst kv) key) fields
  | _ => None
  end.

(** A [range] clause on [timestamp] that carries the bound [bound]. *)
Definition is_timestamp_range (bound : string) (clause : Json) : bool :=
  match field "range" clause with
  | Some range =>
      match field "timestamp" range with
      | Some on_timestamp =>
          match field bound on_timestamp with Some _ => true | None => false end
      | None => false
      end
  | None => false
  end.

Definition with_startTimestamp (v : option Z) (params : SearchArgs) : SearchArgs :=
  {| types := types params; tokens := tokens params; contracts := contracts params;
     collections := collections params; sources := sources params; users := users params;
     startTimestamp := v; endTimestamp := endTimestamp params;
     sortBy := sortBy params; limit := limit params;
     continuation := continuation params;
     continuationAsInt := continuationAsInt params |}.

Definition with_endTimestamp (v : option Z) (params : SearchArgs) : SearchArgs :=
  {| types := types params; tokens := tokens params; contracts := contracts params;
     collections := collections params; sources := sources params; users := users params;
     startTimestamp := startTimestamp params; endTimestamp := v;
     sortBy := sortBy params; limit := limit params;
     continuation := continuation params;
     continuationAsInt := continuationAsInt params |}.

(** An item of a bulk response that reports a failure. *)
Definition is_error_item (item : BulkItem) : bool :=
  match i_error item with Some _ => true | None => false end.

(** The keepGoing rule in the words of the specification: true if the
    response has an error item whose status is not 400, or if exactly 1000
    candidates were found; false otherwise. *)
Definition stated_keepGoing (response : BulkResponse) (candidates : nat) : bool :=
  existsb (fun item => is_error_item item && status_not_400 item) (items response)
  || (candidates =? 1000)%nat.

(** ** Test doubles *)

(** A store that answers from two scripts, one response per call, and a
    clock that advances by one per reading.  A script that has run out
    answers with an empty result. *)
Record Scripted : Type := mkScripted {
  search_script : list (Completion SearchResponse);
  bulk_script : list (Completion BulkResponse);
  clock : Time;
}.

Definition scripted_search (e : Scripted) (_ : SearchRequest)
  : Completion SearchResponse * Scripted :=
  match search_script e with
  | answer :: rest => (answer, mkScripted rest (bulk_script e) (clock e))
  | [] => (Return (mkSearchResponse 0 []), e)
  end.

Definition scripted_bulk (e : Scripted) (_ : BulkRequest)
  : Completion BulkResponse * Scripted :=
  match bulk_script e with
  | answer :: rest => (answer, mkScripted (search_script e) rest (clock e))
  | [] => (Return (mkBulkResponse false []), e)
  end.

(** The cursor text is left unencoded: decoding yields it whole, as one
    component. *)
Definition scripted : Platform :=
  {| Env := Scripted;
     es_search := scripted_search;
     es_bulk := scripted_bulk;
     new_Date := fun e => (clock e, mkScripted (search_script e) (bulk_script e) (clock e + 1)%Z);
     getNetworkName := "mainnet";
     splitContinuation := fun c => Return [c];
     buildContinuation := fun c => c |}.

(** A store whose search endpoint fails every call with [error]. *)
Definition unavailable (error : JsError) : Platform :=
  {| Env := unit;
     es_search := fun e _ => (Throw error, e);
     es_bulk := fun e _ => (Return (mkBulkResponse false []), e);
     new_Date := fun e => (0%Z, e);
     getNetworkName := "mainnet";
     splitContinuation := fun c => Return [c];
     buildContinuation := fun c => c |}.

Definition aborted : JsError :=
  {| name := "RequestAbortedError"; message := "Request aborted"; meta_aborted := true;
     caused_by_type := None |}.

Definition node_not_connected : JsError :=
  {| name := "ResponseError"; message := "transport_exception"; meta_aborted := false;
     caused_by_type := Some "node_not_connected_exception" |}.

Definition parsing_exception : JsError :=
  {| name := "ResponseError"; message := "x_content_parse_exception"; meta_aborted := false;
     caused_by_type := Some "parsing_exception" |}.

Definition start {P : Platform} (e : Env P) : World P := mkWorld e ∅ [] [] [].

Definition script (answers : list (Completion SearchResponse))
  (bulk_answers : list (Completion BulkResponse)) : World scripted :=
  start (P := scripted) (mkScripted answers bulk_answers 1700000000000%Z).

Definition outage (error : JsError) : World (unavailable error) :=
  start (P := unavailable error) tt.

Definition activity (i : string) (t : Z) : ActivityDocument :=
  {| id := i; type := sale; contract := "0xabc"; fromAddress := "0x01";
     toAddress := Some "0x02"; timestamp := t; createdAt := t; indexedAt := None |}.

(** A hit found in the physical index [generation], sorted by
    [createdAt] and [id]. *)
Definition hit_in (generation : string) (i : string) (t : Z) : Hit :=
  {| _index := generation; _source := activity i t; sort := [SNum t; SStr i] |}.

Definition generation_1 : string := "mainnet.activities-1690000000000".

Definition found (n : nat) : Completion SearchResponse :=
  Return (mkSearchResponse 3 (replicate n (hit_in generation_1 "a1" 1700000100))).

Definition updated : BulkItem := mkBulkItem op_update (Some 200%Z) None.

Definition rejected : BulkItem :=
  mkBulkItem op_update (Some 400%Z) (Some "illegal_argument_exception").

Definition blue_chips : CollectionsEntity :=
  mkCollection "0xb76f" "Blue Chips" (Some "https://img.example/blue.png").

(** A search for the page after a cursor with a single component. *)
Definition legacy_page : SearchArgs :=
  mkSearchArgs None None None None None None None None None (Some 2%Z)
               (Some "1700000100") None.

Definition first_page : SearchArgs :=
  mkSearchArgs None None None None None None None None None (Some 2%Z) None None.

Definition empty_page : SearchArgs :=
  mkSearchArgs None None None None None None None None None (Some 0%Z) None None.

Definition since_epoch : SearchArgs :=
  mkSearchArgs (Some [sale]) None None None None None (Some 0%Z) (Some 0%Z) None
               (Some 2%Z) None None.

(** A heap with two activities that were never indexed. *)
Definition two_activities (answers : list (Completion BulkResponse)) : World scripted :=
  mkWorld (P := scripted) (mkScripted [] answers 1700000000000%Z)
          (<[0%nat := activity "a1" 1700000100]> (<[1%nat := activity "a2" 1700000200]> ∅))
          [] [] [].

Definition partial_failure : Completion BulkResponse :=
  Return (mkBulkResponse true [updated; rejected]).

(** [o.k1.k2...] on nested object literals. *)
Fixpoint path (keys : list string) (o : Json) : option Json :=
  match keys with
  | [] => Some o
  | key :: rest =>
      match field key o with
      | Some value => path rest value
      | None => None
      end
  end.

Definition refresh_blue_chips : PropagationCall :=
  CollectionMetadata "0xB76F" (mkCollectionData (Some "Blue Chips") None).

Definition backfill_blue_chips : PropagationCall :=
  MissingCollection "0xABC" 7 blue_chips.

Definition fixed_contract : string := "0xb76fbbb30e31f2c3bdaa2466cfb1cfe39b220d06".

Definition fixed_tokenId : string := "7514".

Definition refresh_token : PropagationCall :=
  TokenMetadata "0xABCDEF" "1" (mkTokenData (Some "Ape #1") None None).

(** ** Further functions of the module *)

Section Deletion.
Context (P : Platform).

(** [ids.flatMap((id) => ({ delete: ... }))]: one action per id. *)
Definition deleteActivitiesById (ids : list string) : M P unit :=
  try_catch
    (let* response :=
       elasticsearch_bulk
         (mkBulkRequest
            (map (fun id => LAction (mkBulkAction op_delete (INDEX_NAME P) id None)) ids)
            None []) in
     if errors response
     then logger log_warn "delete-by-id-conflicts" ""
     else ret tt)
    (fun error => logger log_error "delete-by-id-error" "" ;; throw error).

Definition block_hash_query (blockHash : string) : Json :=
  obj1 "bool" (obj1 "must" (JArr [q_term "event.blockHash" (JStr blockHash)])).

Definition deleteActivitiesByBlockHash (blockHash : string) : M P bool :=
  let keepGoing := false in
  let query := block_hash_query blockHash in
  try_catch
    (let* esResult := _search P (scan_params query) 0 false in
     let pendingUpdateDocuments :=
       map (fun hit => (id (_source hit), _index hit)) (hits esResult) in
     if (0 <? length pendingUpdateDocuments)%nat then
       let bulkParams :=
         {| b_body :=
              flat_map
                (fun document =>
                   [LAction (mkBulkAction op_delete (snd document) (fst document) None)])
                pendingUpdateDocuments;
            b_filter_path := Some "items.*.error";
            b_ignore := [404%Z] |} in
       let* response := elasticsearch_bulk bulkParams in
       if errors response then
         let keepGoing := existsb status_not_400 (items response) in
         logger log_error "deleteActivitiesByBlockHash" "Errors in response" ;;
         ret keepGoing
       else
         let keepGoing := (length pendingUpdateDocuments =? 1000)%nat in
         ret keepGoing
     else ret keepGoing)
    (fun error =>
       if retryableError error then
         logger log_warn "deleteActivitiesByBlockHash" "Unexpected error" ;;
         ret true
       else
         logger log_error "deleteActivitiesByBlockHash" "Unexpected error" ;;
         throw error).

Definition getIndexName : string := INDEX_NAME P.
End Deletion.

(** *** getChainStatsFromActivity: the rolling windows *)

(** [now] is [Date.now()], a whole number of milliseconds; the results
    are in seconds.  On whole numbers of this size the arithmetic of the
    source is exact, and [Math.floor] of a quotient is integer division.
    Rounds to 5 minute intervals to take advantage of caching. *)
Definition oneDayAgo (now : Z) : Z :=
  ((now - 24 * 60 * 60 * 1000) / (5 * 60 * 1000) * (5 * 60 * 1000) / 1000)%Z.

Definition sevenDaysAgo (now : Z) : Z :=
  ((now - 7 * 24 * 60 * 60 * 1000) / (5 * 60 * 1000) * (5 * 60 * 1000) / 1000)%Z.

Definition chain_stats_periods (now : Z) : list (string * Z) :=
  [("1day", oneDayAgo now); ("7day", sevenDaysAgo now)].

(** The body of the query of one period. *)
Definition chain_stats_query (startTime : Z) : Json :=
  JObj
    [("query",
      obj1 "constant_score"
        (obj1 "filter"
           (obj1 "bool"
              (obj1 "filter"
                 (JArr
                    [q_terms "type" [JStr "sale"; JStr "mint"];
                     obj1 "range"
                       (obj1 "timestamp"
                          (JObj [("gte", JNum startTime);
                                 ("format", JStr "epoch_second")]))])))));
     ("aggs",
      obj1 "sales_by_type"
        (JObj
           [("terms", obj1 "field" (JStr "type"));
            ("aggs",
             JObj
               [("sales_count", obj1 "value_count" (obj1 "field" (JStr "id")));
                ("total_volume", obj1 "sum" (obj1 "field" (JStr "pricing.priceDecimal")))])]));
     ("size", JNum 0)].

Definition chain_stats_queries (now : Z) : list (string * Json) :=
  map (fun period => (fst period, chain_stats_query (snd period))) (chain_stats_periods now).

(** *** initIndex *)

(** The index-management calls of the client and the backfill queue, as
    [initIndex] issues them. *)
Inductive AdminCall : Type :=
| call_exists (index : string)
| call_get (index : string)
| call_putMapping (index : option string) (properties : option Json)
| call_create (params : Json)
| call_addToQueue.

(** What [initIndex] uses beyond [Platform]: [elasticsearch.indices],
    the backfill job, the network settings of the activities index and the
    table of index configurations ([CONFIG], whose entries are object
    literals).  [indices_get] yields the keys of the response. *)
Record Lifecycle (P : Platform) : Type := mkLifecycle {
  indices_exists : Env P -> string -> Completion bool * Env P;
  indices_get : Env P -> string -> Completion (list string) * Env P;
  indices_putMapping : Env P -> option string -> option Json -> Completion unit * Env P;
  indices_create : Env P -> Json -> Completion unit * Env P;
  backfill_addToQueue : Env P -> Completion unit * Env P;
  settings_configName : option string;
  settings_disableMappingsUpdate : bool;
  CONFIG : string -> option (list (string * Json));
}.
Arguments indices_exists {P} l e index.
Arguments indices_get {P} l e index.
Arguments indices_putMapping {P} l e index properties.
Arguments indices_create {P} l e params.
Arguments backfill_addToQueue {P} l e.
Arguments settings_configName {P} l.
Arguments settings_disableMappingsUpdate {P} l.
Arguments CONFIG {P} l name.

(** The world of [initIndex]: the world of the module and the
    management calls issued so far. *)
Record Admin (P : Platform) : Type := mkAdmin {
  world : World P;
  calls : list AdminCall;
}.
Arguments mkAdmin {P} world calls.
Arguments world {P} a.
Arguments calls {P} a.

Definition MA (P : Platform) (A : Type) : Type := Admin P -> Completion A * Admin P.

Definition retA {P : Platform} {A : Type} (a : A) : MA P A := fun s => (Return a, s).

Definition throwA {P : Platform} {A : Type} (e : JsError) : MA P A := fun s => (Throw e, s).

Definition bindA {P : Platform} {A B : Type} (m : MA P A) (k : A -> MA P B) : MA P B :=
  fun s =>
    match m s with
    | (Return a, s') => k a s'
    | (Throw e, s') => (Throw e, s')
    end.

Definition try_catchA {P : Platform} {A : Type}
  (body : MA P A) (handler : JsError -> MA P A) : MA P A :=
  fun s =>
    match body s with
    | (Return a, s') => (Return a, s')
    | (Throw e, s') => handler e s'
    end.

(** An operation of the module, run inside [initIndex]. *)
Definition in_world {P : Platform} {A : Type} (m : M P A) : MA P A :=
  fun s => let '(result, w) := m (world s) in (result, mkAdmin w (calls s)).

(** A management call: it is recorded, and the store answers. *)
Definition admin {P : Platform} {A : Type} (call : AdminCall)
  (answer : Env P -> Completion A * Env P) : MA P A :=
  fun s =>
    let w := world s in
    let '(result, e) := answer (env w) in
    (result,
     mkAdmin (mkWorld e (heap w) (searches w) (bulks w) (logs w)) (calls s ++ [call])).

Declare Scope admin_scope.
Delimit Scope admin_scope with admin.
Notation "'let*' x := m 'in' k" := (bindA m (fun x => k))
  (at level 10, x name, m at level 100, k at level 200) : admin_scope.
Notation "m ;; k" := (bindA m (fun _ => k))
  (at level 100, k at level 200, right associativity) : admin_scope.

(** [o.key] as JavaScript evaluates it: a TypeError on [undefined] and
    on [null], [undefined] on a value without that key. *)
Definition member (o : option Json) (key : string) : Completion (option Json) :=
  match o with
  | None =>
      Throw (TypeError ("Cannot read properties of undefined (reading '" +:+ key +:+ "')"))
  | Some JNull =>
      Throw (TypeError ("Cannot read properties of null (reading '" +:+ key +:+ "')"))
  | Some value => Return (field key value)
  end.

(** [{ ...fields, [key]: value }] *)
Fixpoint set_field (key : string) (value : Json) (fields : list (string * Json))
  : list (string * Json) :=
  match fields with
  | [] => [(key, value)]
  | (k, v) :: rest =>
      if String.eqb k key then (k, value) :: rest else (k, v) :: set_field key value rest
  end.

(** [{ ...base, ...extra }]; [extra] may be [undefined]. *)
Definition spread (base : list (string * Json)) (extra : option (list (string * Json)))
  : list (string * Json) :=
  fold_left (fun fields kv => set_field (fst kv) (snd kv) fields) (default [] extra) base.

Definition decimal (z : Z) : string := NilZero.string_of_int (Z.to_int z).

Section IndexLifecycle.
Context (P : Platform) (L : Lifecycle P).
Local Open Scope admin_scope.

Definition create_params (now : Time) : Json :=
  JObj
    (spread
       [("aliases", obj1 (INDEX_NAME P) (JObj []));
        ("index", JStr (INDEX_NAME P +:+ "-" +:+ decimal now))]
       (CONFIG L (default "CONFIG_DEFAULT" (settings_configName L)))).

Definition initIndex : MA P unit :=
  try_catchA
    (let indexConfigName := default "CONFIG_DEFAULT" (settings_configName L) in
     let indexConfig := CONFIG L indexConfigName in
     let* exists_ := admin (call_exists (INDEX_NAME P))
                       (fun e => indices_exists L e (INDEX_NAME P)) in
     if exists_ : bool then
       in_world (logger log_info "initIndex" "Index already exists.") ;;
       if settings_disableMappingsUpdate L then
         in_world (logger log_info "initIndex" "Mappings update disabled.")
       else
         let* getIndexResponse := admin (call_get (INDEX_NAME P))
                                    (fun e => indices_get L e (INDEX_NAME P)) in
         let indexName := head getIndexResponse in
         let* mappings := in_world (lift (member (JObj <$> indexConfig) "mappings")) in
         let* properties := in_world (lift (member mappings "properties")) in
         admin (call_putMapping indexName properties)
           (fun e => indices_putMapping L e indexName properties) ;;
         in_world (logger log_info "initIndex" "Updated mappings.")
     else
       in_world (logger log_info "initIndex" "Creating Index.") ;;
       let* now := in_world Date_now in
       let params := create_params now in
       admin (call_create params) (fun e => indices_create L e params) ;;
       in_world (logger log_info "initIndex" "Index Created!") ;;
       admin call_addToQueue (fun e => backfill_addToQueue L e))
    (fun error => in_world (logger log_error "initIndex" "Error.") ;; throwA error).
End IndexLifecycle.

(** ** Vocabulary of the further properties *)

(** Starting from [e], the store fails [k] searches for [request] in a
    row with retryable errors, then answers [answer] and is left in [e']. *)
Fixpoint recovers (P : Platform) (k : nat) (e : Env P) (request : SearchRequest)
  (answer : SearchResponse) (e' : Env P) : Prop :=
  match k with
  | O => es_search P e request = (Return answer, e')
  | S k' =>
      exists error e1,
        es_search P e request = (Throw error, e1)
        /\ retryableError error = true
        /\ recovers P k' e1 request answer e'
  end.

Definition one_hit : SearchResponse :=
  mkSearchResponse 3 [hit_in generation_1 "a1" 1700000100].

(** [s] has no occurrence of the character [c]. *)
Fixpoint free_of (c : ascii) (s : string) : bool :=
  match s with
  | EmptyString => true
  | String c' rest => negb (Ascii.eqb c' c) && free_of c rest
  end.

Definition with_continuation (c : option string) (params : SearchArgs) : SearchArgs :=
  {| types := types params; tokens := tokens params; contracts := contracts params;
     collections := collections params; sources := sources params; users := users params;
     startTimestamp := startTimestamp params; endTimestamp := endTimestamp params;
     sortBy := sortBy params; limit := limit params;
     continuation := c;
     continuationAsInt := continuationAsInt params |}.



(** A platform whose decoder rejects every cursor. *)
Definition picky : Platform :=
  {| Env := Scripted;
     es_search := scripted_search;
     es_bulk := scripted_bulk;
     new_Date := fun e => (clock e, mkScripted (search_script e) (bulk_script e) (clock e + 1)%Z);
     getNetworkName := "mainnet";
     splitContinuation := fun c => Throw (Error "Invalid continuation");
     buildContinuation := fun c => c |}.

Definition picky_start : World picky :=
  start (P := picky) (mkScripted [] [] 1700000000000%Z).


(** The action lines of a bulk body, in order. *)
Definition actions (body : list BulkLine) : list BulkAction :=
  omap (fun line => match line with LAction a => Some a | _ => None end) body.

(** Step 2 of [deleteActivitiesByBlockHash]. *)
Definition block_scan (P : Platform) (blockHash : string) : M P SearchResponse :=
  _search P (scan_params (block_hash_query blockHash)) 0 false.

(** Step 3 of [deleteActivitiesByBlockHash], from the hits of the scan. *)
Definition bulk_delete (hits : list Hit) : BulkRequest :=
  {| b_body :=
       map (fun hit => LAction (mkBulkAction op_delete (_index hit) (id (_source hit)) None))
         hits;
     b_filter_path := Some "items.*.error";
     b_ignore := [404%Z] |}.

Definition delete_rejected : BulkItem :=
  mkBulkItem op_delete (Some 400%Z) (Some "illegal_argument_exception").

(** The management calls a computation added to the record. *)
Definition admin_calls {P : Platform} {A : Type} (m : MA P A) (s : Admin P) : list AdminCall :=
  drop (length (calls s)) (calls (snd (m s))).

(** A configuration without an [index] or [aliases] entry of its own. *)
Definition plain_config (config : option (list (string * Json))) : Prop :=
  Forall (fun kv => fst kv <> "aliases" /\ fst kv <> "index") (default [] config).

Definition default_config : list (string * Json) :=
  [("mappings",
    JObj [("dynamic", JStr "false");
          ("properties", JObj [("id", obj1 "type" (JStr "keyword"))])]);
   ("settings", obj1 "number_of_shards" (JNum 2))].

(** A cluster for [initIndex]: whether the alias resolves, what creating
    an index answers, whether mapping updates are disabled, and the table of
    configurations. *)
Definition cluster (alias_exists : bool) (on_create : Completion unit) (disabled : bool)
  (table : string -> option (list (string * Json))) : Lifecycle scripted :=
  {| indices_exists := fun e _ => (Return alias_exists, e);
     indices_get := fun e _ => (Return [generation_1], e);
     indices_putMapping := fun e _ _ => (Return tt, e);
     indices_create := fun e _ => (on_create, e);
     backfill_addToQueue := fun e => (Return tt, e);
     settings_configName := None;
     settings_disableMappingsUpdate := disabled;
     CONFIG := table |}.

Definition only_default (name : string) : option (list (string * Json)) :=
  if String.eqb name "CONFIG_DEFAULT" then Some default_config else None.

Definition no_config (name : string) : option (list (string * Json)) := None.

Definition boot : Admin scripted := mkAdmin (script [] []) [].


(** * Properties *)

(** ** The retry wrapper *)

Section SearchFacts.
Context (P : Platform).

Lemma search_request_idem params :
  search_request P (default_track_total_hits params) = search_request P params.
Proof. reflexivity. Qed.

(** One attempt, spelled out on the answer of the store. *)
Lemma _search_attempt params retries debug w :
  _search P params retries debug w =
  match es_search P (env w) (search_request P params) with
  | (Return esResult, e) =>
      let w1 := mkWorld e (heap w) (searches w ++ [search_request P params]) (bulks w) (logs w) in
      if (0 <? retries)%nat || debug
      then (Return esResult,
            mkWorld e (heap w) (searches w1) (bulks w) (logs w ++ [mkLog log_info "_search" ""]))
      else (Return esResult, w1)
  | (Throw error, e) =>
      let w1 := mkWorld e (heap w) (searches w ++ [search_request P params]) (bulks w) (logs w) in
      if retryableError error then
        let w2 := mkWorld e (heap w) (searches w1) (bulks w)
                          (logs w ++ [mkLog log_warn "_search" "Retrying..."]) in
        if (retries <=? 3)%nat
        then _search P (default_track_total_hits params) (retries + 1) debug w2
        else (Throw (Error "Could not perform search."),
              mkWorld e (heap w) (searches w1) (bulks w)
                      (logs w2 ++ [mkLog log_error "_search" "Max retries reached."]))
      else (Throw error,
            mkWorld e (heap w) (searches w1) (bulks w)
                    (logs w ++ [mkLog log_error "_search" "Unexpected error."]))
  end.
Proof.
  rewrite _search_equation_1. unfold elasticsearch_search, search_request. cbn zeta.
  destruct (es_search P (env w) _) as [[esResult|error] e]; cbn.
  - destruct ((0 <? retries)%nat || debug); reflexivity.
  - destruct (retryableError error); [|reflexivity].
    destruct (le_dec retries 3) as [Hle|Hgt].
    + apply Nat.leb_le in Hle. rewrite Hle. reflexivity.
    + apply Nat.leb_nle in Hgt. rewrite Hgt. reflexivity.
Qed.

(** [_search] only talks to the search endpoint: it repeats one request
    and leaves the heap and the bulk log alone. *)
Lemma _search_sends params retries debug w :
  exists n : nat,
    1 <= n /\
    searches (snd (_search P params retries debug w))
    = searches w ++ replicate n (search_request P params) /\
    heap (snd (_search P params retries debug w)) = heap w /\
    bulks (snd (_search P params retries debug w)) = bulks w.
Proof.
  funelim (_search P params retries debug w).
  rewrite Heqcall. clear Heqcall. rename H into IH.
  rewrite _search_attempt.
  destruct (es_search P (env w) _) as [[esResult|error] e]; cbn zeta.
  - exists 1. destruct ((0 <? retries)%nat || debug); cbn; auto.
  - destruct (retryableError error); [|exists 1; cbn; auto].
    destruct (retries <=? 3)%nat eqn:Hle; [|exists 1; cbn; auto].
    apply Nat.leb_le in Hle.
    match goal with
    | |- context [_search P _ _ _ ?w2] =>
        destruct (IH (Throw error) w2 error (Return tt) w2 Hle) as (n & Hn & Hs & Hh & Hb)
    end.
    exists (S n). rewrite Hs, Hh, Hb. cbn.
    rewrite <- app_assoc. repeat split; auto with lia.
Qed.

(** Whatever [_search] throws is not classified as retryable: either
    the store's own fatal error, or the terminal error. *)
Lemma _search_throws_fatal params retries debug w error :
  fst (_search P params retries debug w) = Throw error ->
  retryableError error = false.
Proof.
  funelim (_search P params retries debug w).
  rewrite Heqcall. clear Heqcall. rename H into IH.
  rewrite _search_attempt.
  destruct (es_search P (env w) _) as [[esResult|error0] e]; cbn zeta.
  - destruct ((0 <? retries)%nat || debug); cbn; discriminate.
  - destruct (retryableError error0) eqn:Hr.
    + destruct (retries <=? 3)%nat eqn:Hle.
      * apply Nat.leb_le in Hle. intros Hthrow.
        eapply (IH (Throw error0) w error0 (Return tt)); eauto.
      * cbn. intros [= <-]. reflexivity.
    + cbn. intros [= <-]. exact Hr.
Qed.

Lemma _search_exhausts params retries debug w :
  always_transient P ->
  retries <= 4 ->
  fst (_search P params retries debug w) = Throw (Error "Could not perform search.") /\
  searches (snd (_search P params retries debug w))
  = searches w ++ replicate (5 - retries) (search_request P params).
Proof.
  intros Hstore.
  funelim (_search P params retries debug w).
  rewrite Heqcall. clear Heqcall. rename H into IH. intros Hretries.
  rewrite _search_attempt.
  destruct (Hstore (env w) (search_request P params0)) as (error & e & -> & ->).
  cbn zeta.
  destruct (retries <=? 3)%nat eqn:Hle.
  - apply Nat.leb_le in Hle.
    match goal with
    | |- context [_search P _ _ _ ?w2] =>
        destruct (IH (Throw error) w2 error (Return tt) w2 Hle Hstore) as [Hr Hs]; [lia|]
    end.
    rewrite Hr, Hs. cbn. split; [reflexivity|].
    rewrite <- app_assoc. cbn.
    replace (5 - retries) with (S (5 - (retries + 1))) by lia. reflexivity.
  - apply Nat.leb_nle in Hle. replace retries with 4 by lia. cbn. auto.
Qed.

Lemma _search_fatal params retries debug w error e :
  es_search P (env w) (search_request P params) = (Throw error, e) ->
  retryableError error = false ->
  fst (_search P params retries debug w) = Throw error /\
  searches (snd (_search P params retries debug w)) = searches w ++ [search_request P params].
Proof.
  intros Hstore Hfatal. rewrite _search_attempt, Hstore. cbn zeta.
  rewrite Hfatal. cbn. auto.
Qed.
End SearchFacts.

Lemma sent_after {A : Type} (before sent : list A) (after : list A) :
  after = before ++ sent -> drop (length before) after = sent.
Proof. intros ->. apply drop_app_length. Qed.

(** C2 (amended): called with [retries = 0], as every caller does, the
    wrapper makes exactly five attempts (the first and four retries) at a
    store whose search always fails with a retryable error, then throws
    "Could not perform search.", which differs from every retryable error;
    when the first attempt fails with an error that is not retryable, that
    attempt is the only one and the store's error is rethrown. *)
Theorem _search_retry_bound (P : Platform) params debug (w : World P) :
  (always_transient P ->
   fst (_search P params 0 debug w) = Throw (Error "Could not perform search.")
   /\ searches_sent P (_search P params 0 debug) w = replicate 5 (search_request P params)
   /\ forall error, retryableError error = true -> Error "Could not perform search." <> error)
  /\ (forall error e,
        es_search P (env w) (search_request P params) = (Throw error, e) ->
        retryableError error = false ->
        fst (_search P params 0 debug w) = Throw error
        /\ searches_sent P (_search P params 0 debug) w = [search_request P params]).
Proof.
  split.
  - intros Hstore.
    destruct (_search_exhausts P params 0 debug w Hstore) as [Hthrow Hsent]; [lia|].
    split; [exact Hthrow|]. split.
    + unfold searches_sent. apply sent_after. exact Hsent.
    + intros error Hretry Heq. rewrite <- Heq in Hretry. discriminate.
  - intros error e Hstore Hfatal.
    destruct (_search_fatal P params 0 debug w error e Hstore Hfatal) as [Hthrow Hsent].
    split; [exact Hthrow|]. unfold searches_sent. apply sent_after. exact Hsent.
Qed.

Lemma unavailable_always_transient error :
  retryableError error = true -> always_transient (unavailable error).
Proof. intros Hretry e request. exists error, e. split; [reflexivity|exact Hretry]. Qed.

Lemma _search_retry_bound_witness :
  (fst (_search (unavailable aborted) (scan_params JNull) 0 false (outage aborted))
   = Throw (Error "Could not perform search.")
   /\ length (searches_sent (unavailable aborted)
                (_search (unavailable aborted) (scan_params JNull) 0 false) (outage aborted)) = 5)
  /\ (fst (_search (unavailable parsing_exception) (scan_params JNull) 0 false
           (outage parsing_exception))
      = Throw parsing_exception
      /\ length (searches_sent (unavailable parsing_exception)
                   (_search (unavailable parsing_exception) (scan_params JNull) 0 false)
                   (outage parsing_exception)) = 1).
Proof.
  split.
  - destruct (proj1 (_search_retry_bound (unavailable aborted) (scan_params JNull) false
                (outage aborted))
                (unavailable_always_transient aborted eq_refl)) as (Hthrow & Hsent & _).
    split; [exact Hthrow|]. rewrite Hsent. reflexivity.
  - destruct (proj2 (_search_retry_bound (unavailable parsing_exception) (scan_params JNull)
                       false (outage parsing_exception))
                parsing_exception tt eq_refl eq_refl) as (Hthrow & Hsent).
    split; [exact Hthrow|]. rewrite Hsent. reflexivity.
Defined.

(** C2 as stated fails: at a store that aborts every search the wrapper
    makes five attempts, not four. *)
Lemma _search_four_attempts_counterexample :
  always_transient (unavailable aborted)
  /\ length (searches_sent (unavailable aborted)
               (_search (unavailable aborted) (scan_params JNull) 0 false) (outage aborted)) = 5
  /\ length (searches_sent (unavailable aborted)
               (_search (unavailable aborted) (scan_params JNull) 0 false) (outage aborted)) <> 4.
Proof.
  split; [apply unavailable_always_transient; reflexivity|].
  split; [vm_compute; reflexivity|vm_compute; discriminate].
Qed.

(** ** search *)

Section SearchEngine.
Context (P : Platform).

(** Decoding the continuation leaves the world as it is. *)
Lemma search_searchAfter_world params (w : World P) :
  snd (search_searchAfter P params w) = w.
Proof.
  unfold search_searchAfter, bind, lift, ret.
  destruct (truthy_string (continuation params)); [|reflexivity].
  destruct (truthy_bool (continuationAsInt params)); [reflexivity|].
  destruct (splitContinuation P _); reflexivity.
Qed.

(** Once the continuation is decoded, [search] is one call of the retry
    wrapper followed by the computation of the next continuation. *)
Lemma search_after_decoding params debug (w : World P) searchAfter :
  fst (search_searchAfter P params w) = Return searchAfter ->
  search P params debug w =
  match _search P (search_params params searchAfter) 0 debug w with
  | (Return esResult, w1) =>
      (Return (SearchResult.mk (map _source (hits esResult))
                 (search_continuation P params (hits esResult))), w1)
  | (Throw error, w1) =>
      (Throw error,
       mkWorld (env w1) (heap w1) (searches w1) (bulks w1)
               (logs w1 ++ [mkLog log_error "search" ""]))
  end.
Proof.
  intros Hdecode. unfold search, bind at 1.
  pose proof (search_searchAfter_world params w) as Hworld.
  destruct (search_searchAfter P params w) as [decoded w0]. cbn in Hdecode, Hworld.
  subst decoded w0. unfold try_catch, bind.
  destruct (_search P _ 0 debug w) as [[esResult|error] w1]; reflexivity.
Qed.

Lemma search_sends params debug (w : World P) searchAfter :
  fst (search_searchAfter P params w) = Return searchAfter ->
  exists n, 1 <= n /\
    searches_sent P (search P params debug) w
    = replicate n (search_request P (search_params params searchAfter)).
Proof.
  intros Hdecode.
  destruct (_search_sends P (search_params params searchAfter) 0 debug w)
    as (n & Hn & Hsent & _).
  exists n. split; [exact Hn|].
  unfold searches_sent. apply sent_after.
  rewrite (search_after_decoding _ _ _ _ Hdecode).
  destruct (_search P _ 0 debug w) as [[esResult|error] w1]; exact Hsent.
Qed.
End SearchEngine.

(** C3 (amended): every request [search] sends carries the primary sort
    field followed by the descending [id] tie-break exactly when
    [continuationAsInt] is not set and the decoded continuation does not
    consist of a single component (no continuation: no component); with
    [continuationAsInt] set the tie-break is never appended. *)
Theorem search_sort_tie_break (P : Platform) params debug (w : World P) searchAfter :
  fst (search_searchAfter P params w) = Return searchAfter ->
  searches_sent P (search P params debug) w <> []
  /\ Forall
       (fun request =>
          p_sort (r_params request)
          = Some (sort_primary params
                    :: (if truthy_bool (continuationAsInt params) then []
                        else if (length searchAfter =? 1)%nat then []
                             else [sort_tie_break])))
       (searches_sent P (search P params debug) w).
Proof.
  intros Hdecode.
  destruct (search_sends P params debug w searchAfter Hdecode) as (n & Hn & ->).
  split.
  - destruct n; [lia|discriminate].
  - apply Forall_replicate. cbn. unfold search_esSort. cbn.
    destruct (length searchAfter =? 1)%nat, (truthy_bool (continuationAsInt params));
      reflexivity.
Qed.

Lemma search_sort_tie_break_witness :
  Forall
    (fun request =>
       p_sort (r_params request)
       = Some [obj1 "createdAt" (obj1 "order" (JStr "desc"));
               obj1 "id" (obj1 "order" (JStr "desc"))])
    (searches_sent scripted (search scripted first_page false) (script [] [])).
Proof.
  exact (proj2 (search_sort_tie_break scripted first_page false (script [] []) [] eq_refl)).
Defined.

(** C3 as stated fails: [continuationAsInt] is not set, yet the request
    for the page after a one-component cursor sorts on [createdAt] alone. *)
Lemma search_tie_break_counterexample :
  continuationAsInt legacy_page = None
  /\ map (fun request => p_sort (r_params request))
       (searches_sent scripted (search scripted legacy_page false) (script [] []))
     = [Some [obj1 "createdAt" (obj1 "order" (JStr "desc"))]].
Proof. split; vm_compute; reflexivity. Qed.

Lemma last_is_Some {A : Type} (xs : list A) :
  0 < length xs -> exists x, last xs = Some x.
Proof.
  destruct xs as [|x xs] using rev_ind; cbn; [lia|].
  intros _. exists x. apply last_snoc.
Qed.

(** C4 (amended): when the retry wrapper returns a page for a call with
    limit [l], the continuation of the result is null if the page has
    fewer than [l] hits; if it has exactly [l] hits and [l] is at least 1,
    the continuation is the last hit's sort tuple joined with "_", passed
    through [buildContinuation] unless [continuationAsInt] is set. *)
Theorem search_continuation_rule (P : Platform) params debug (w w1 : World P)
    searchAfter esResult l :
  limit params = Some l ->
  fst (search_searchAfter P params w) = Return searchAfter ->
  _search P (search_params params searchAfter) 0 debug w = (Return esResult, w1) ->
  exists continuation,
    search P params debug w
    = (Return (SearchResult.mk (map _source (hits esResult)) continuation), w1)
    /\ ((Z.of_nat (length (hits esResult)) < l)%Z -> continuation = None)
    /\ (Z.of_nat (length (hits esResult)) = l -> (1 <= l)%Z ->
        exists lastResult,
          last (hits esResult) = Some lastResult
          /\ continuation
             = Some (if truthy_bool (continuationAsInt params)
                     then join "_" (sort lastResult)
                     else buildContinuation P (join "_" (sort lastResult)))).
Proof.
  intros Hlimit Hdecode Hpage.
  exists (search_continuation P params (hits esResult)).
  split; [rewrite (search_after_decoding P _ _ _ _ Hdecode), Hpage; reflexivity|].
  unfold search_continuation, page_is_full. rewrite Hlimit. split.
  - intros Hshort. rewrite bool_decide_eq_false_2; [reflexivity|].
    intros [= Heq]. lia.
  - intros Hfull Hpositive. rewrite bool_decide_eq_true_2 by (f_equal; lia).
    destruct (last_is_Some (hits esResult)) as [lastResult Hlast]; [lia|].
    exists lastResult. rewrite Hlast. split; [reflexivity|].
    destruct (truthy_bool (continuationAsInt params)); reflexivity.
Qed.

Lemma search_continuation_rule_witness :
  exists continuation,
    search scripted first_page false (script [found 2] [])
    = (Return (SearchResult.mk (map _source (replicate 2 (hit_in generation_1 "a1" 1700000100)))
                 continuation),
       snd (_search scripted (search_params first_page []) 0 false (script [found 2] [])))
    /\ continuation = Some "1700000100_a1".
Proof.
  destruct (search_continuation_rule scripted first_page false (script [found 2] [])
              (snd (_search scripted (search_params first_page []) 0 false
                      (script [found 2] [])))
              [] (mkSearchResponse 3 (replicate 2 (hit_in generation_1 "a1" 1700000100)))
              2%Z eq_refl eq_refl eq_refl)
    as (continuation & Hresult & _ & Hfull).
  exists continuation. split; [exact Hresult|].
  destruct (Hfull eq_refl ltac:(lia)) as (lastResult & Hlast & ->).
  injection Hlast as <-. reflexivity.
Defined.

(** C4 as stated fails: with limit 0 the store returns exactly limit
    hits, and the continuation is null. *)
Lemma search_full_page_counterexample :
  limit empty_page = Some (Z.of_nat (length (@nil Hit)))
  /\ search scripted empty_page false (script [found 0] [])
     = (Return (SearchResult.mk [] None),
        snd (_search scripted (search_params empty_page []) 0 false (script [found 0] []))).
Proof. split; vm_compute; reflexivity. Qed.

(** C10: a [startTimestamp] (an [endTimestamp]) of 0 puts no range clause
    with a [gte] (an [lt]) bound into the filter, and the whole call
    behaves as the call without that parameter. *)
Theorem search_zero_timestamp_omitted (P : Platform) params debug :
  (startTimestamp params = Some 0%Z ->
   forallb (fun clause => negb (is_timestamp_range "gte" clause)) (search_filter params) = true
   /\ search P params debug = search P (with_startTimestamp None params) debug)
  /\ (endTimestamp params = Some 0%Z ->
      forallb (fun clause => negb (is_timestamp_range "lt" clause)) (search_filter params) = true
      /\ search P params debug = search P (with_endTimestamp None params) debug).
Proof.
  destruct params as [ty tk ct cl so us since till by_ lim cont asInt].
  split; cbn [startTimestamp endTimestamp]; intros ->.
  - split; [|reflexivity].
    unfold search_filter, search_tokens_filter. cbn.
    rewrite !forallb_app.
    destruct (has_length ty), (has_length cl), (has_length ct), (has_length so),
      (has_length tk), (has_length us), (truthy_number till);
      try case_bool_decide; reflexivity.
  - split; [|reflexivity].
    unfold search_filter, search_tokens_filter. cbn.
    rewrite !forallb_app.
    destruct (has_length ty), (has_length cl), (has_length ct), (has_length so),
      (has_length tk), (has_length us), (truthy_number since);
      try case_bool_decide; reflexivity.
Qed.

Lemma search_zero_timestamp_omitted_witness :
  search_filter since_epoch = [q_terms "type" [JStr "sale"]]
  /\ search scripted since_epoch false
     = search scripted (with_startTimestamp None since_epoch) false
  /\ search scripted since_epoch false
     = search scripted (with_endTimestamp None since_epoch) false.
Proof.
  split; [reflexivity|]. split.
  - exact (proj2 (proj1 (search_zero_timestamp_omitted scripted since_epoch false) eq_refl)).
  - exact (proj2 (proj2 (search_zero_timestamp_omitted scripted since_epoch false) eq_refl)).
Defined.

(** ** save *)

Section IndexWriter.
Context (P : Platform).

Lemma stamp_cons activity activities (w : World P) :
  stamp P (activity :: activities) true w =
  stamp P activities true
    (mkWorld (snd (new_Date P (env w)))
             (alter (set_indexedAt (fst (new_Date P (env w)))) activity (heap w))
             (searches w) (bulks w) (logs w)).
Proof.
  unfold stamp. cbn. unfold bind, Date_now, write_indexedAt.
  destruct (new_Date P (env w)) as [now e]. reflexivity.
Qed.

Lemma set_indexedAt_fmap_twice t t' (d : option ActivityDocument) :
  set_indexedAt t <$> (set_indexedAt t' <$> d) = set_indexedAt t <$> d.
Proof. destruct d; reflexivity. Qed.

(** The loop over the batch: it reads the clock once per reference and
    touches nothing but the objects of the batch. *)
Lemma stamp_all activities : forall w : World P,
  fst (stamp P activities true w) = Return tt
  /\ env (snd (stamp P activities true w)) = env_after_reads P (length activities) (env w)
  /\ searches (snd (stamp P activities true w)) = searches w
  /\ bulks (snd (stamp P activities true w)) = bulks w
  /\ logs (snd (stamp P activities true w)) = logs w
  /\ forall l : nat,
       (l ∉ activities -> heap (snd (stamp P activities true w)) !! l = heap w !! l)
       /\ (l ∈ activities ->
           exists k, k < length activities /\ activities !! k = Some l
             /\ heap (snd (stamp P activities true w)) !! l
                = set_indexedAt (reading P k (env w)) <$> heap w !! l).
Proof.
  induction activities as [|activity rest IH]; intros w.
  - cbn. repeat split; auto. intros Hin. inversion Hin.
  - rewrite stamp_cons.
    match goal with |- context [stamp P rest true ?w1] => specialize (IH w1) end.
    destruct IH as (Hret & Henv & Hsearches & Hbulks & Hlogs & Hheap).
    cbn [env heap searches bulks logs] in *.
    repeat split; auto.
    + intros Hout. apply not_elem_of_cons in Hout as [Hne Hout].
      etrans; [exact (proj1 (Hheap l) Hout)|]. cbn. rewrite lookup_alter_ne; auto.
    + intros Hin. destruct (decide (l ∈ rest)) as [Hrest|Hrest].
      * destruct (proj2 (Hheap l) Hrest) as (k & Hk & Hat & Hstamped).
        exists (S k). cbn. split; [lia|]. split; [exact Hat|].
        etrans; [exact Hstamped|]. unfold reading. cbn.
        destruct (decide (activity = l)) as [->|Hne].
        -- rewrite lookup_alter_eq. apply set_indexedAt_fmap_twice.
        -- rewrite lookup_alter_ne; auto.
      * apply elem_of_cons in Hin as [->|Hin]; [|contradiction].
        exists 0. cbn. split; [lia|]. split; [reflexivity|].
        etrans; [exact (proj1 (Hheap activity) Hrest)|]. cbn. apply lookup_alter_eq.
Qed.

Lemma stamp_off activities (w : World P) : stamp P activities false w = (Return tt, w).
Proof. reflexivity. Qed.

Lemma stamp_returns activities overrideIndexedAt (w : World P) :
  fst (stamp P activities overrideIndexedAt w) = Return tt
  /\ searches (snd (stamp P activities overrideIndexedAt w)) = searches w
  /\ bulks (snd (stamp P activities overrideIndexedAt w)) = bulks w
  /\ logs (snd (stamp P activities overrideIndexedAt w)) = logs w.
Proof.
  destruct overrideIndexedAt; [|rewrite stamp_off; auto].
  destruct (stamp_all activities w) as (? & ? & ? & ? & ? & ?). auto.
Qed.

(** [save], spelled out on the answer of the store to the bulk write. *)
Lemma save_after_stamping activities upsert overrideIndexedAt (w : World P) :
  save P activities upsert overrideIndexedAt w =
  let w1 := snd (stamp P activities overrideIndexedAt w) in
  let request := save_request P activities upsert w1 in
  match es_bulk P (env w1) request with
  | (Return response, e2) =>
      (Return tt,
       mkWorld e2 (heap w1) (searches w1) (bulks w1 ++ [request])
               (logs w1 ++ (if errors response && upsert
                            then [mkLog log_error "save" "save activities errors"]
                            else [])))
  | (Throw error, e2) =>
      (Throw error,
       mkWorld e2 (heap w1) (searches w1) (bulks w1 ++ [request])
               (logs w1 ++ [mkLog log_error "save"
                              ("error saving activities. error=" +:+ toString error)]))
  end.
Proof.
  unfold save, try_catch. unfold bind at 1.
  change (if overrideIndexedAt then _ else ret ()) with (stamp P activities overrideIndexedAt).
  pose proof (stamp_returns activities overrideIndexedAt w) as (Hret & _).
  destruct (stamp P activities overrideIndexedAt w) as [c w1]. cbn in Hret. subst c.
  cbn zeta. unfold bind, deref, elasticsearch_bulk, save_request. cbn [fst snd].
  destruct (es_bulk P (env w1) _) as [[response|error] e2]; [|reflexivity].
  destruct (errors response), upsert; cbn; rewrite ?app_nil_r; reflexivity.
Qed.
End IndexWriter.

(** C8: with [overrideIndexedAt] set, [save] submits one bulk write whose
    documents are the objects of the batch as they are after stamping:
    every object of the batch has [indexedAt] set to a reading of the clock
    taken during the call, its other fields unchanged, and so has every
    document of the request; with the flag off the heap is left as it was
    and the request carries the objects unchanged. *)
Theorem save_stamps_indexedAt (P : Platform) activities upsert (w : World P) :
  (bulks_sent P (save P activities upsert true) w
   = [save_request P activities upsert (snd (save P activities upsert true w))]
   /\ (forall l : nat, l ∈ activities ->
       exists k, k < length activities /\ activities !! k = Some l
         /\ heap (snd (save P activities upsert true w)) !! l
            = set_indexedAt (reading P k (env w)) <$> heap w !! l)
   /\ Forall
        (fun line => forall d, line = LDocument d ->
           exists k, k < length activities /\ indexedAt d = Some (reading P k (env w)))
        (b_body (save_request P activities upsert (snd (save P activities upsert true w)))))
  /\ (bulks_sent P (save P activities upsert false) w = [save_request P activities upsert w]
      /\ heap (snd (save P activities upsert false w)) = heap w).
Proof.
  split.
  - destruct (stamp_all P activities w) as (_ & _ & _ & Hbulks & _ & Hheap).
    assert (Hw : heap (snd (save P activities upsert true w))
                 = heap (snd (stamp P activities true w))
                 /\ bulks (snd (save P activities upsert true w))
                    = bulks w
                      ++ [save_request P activities upsert (snd (stamp P activities true w))]).
    { rewrite save_after_stamping. cbn zeta. rewrite <- Hbulks.
      destruct (es_bulk P _ _) as [[response|error] e2]; auto. }
    destruct Hw as [Hh Hb].
    assert (Hreq : save_request P activities upsert (snd (save P activities upsert true w))
                   = save_request P activities upsert (snd (stamp P activities true w))).
    { unfold save_request. rewrite Hh. reflexivity. }
    split; [|split].
    + unfold bulks_sent. apply sent_after. rewrite Hreq. exact Hb.
    + intros l Hin. rewrite Hh. exact (proj2 (Hheap l) Hin).
    + rewrite Hreq. unfold save_request, save_body. cbn [b_body].
      apply Forall_forall. intros line Hline d ->.
      apply list_elem_of_In, in_flat_map in Hline as (d0 & Hd0 & Hline).
      destruct Hline as [Hline|[Hline|[]]]; [discriminate|]. injection Hline as ->.
      apply list_elem_of_In, list_elem_of_omap in Hd0 as (l & Hin & Hlook).
      destruct (proj2 (Hheap l) Hin) as (k & Hk & _ & Hstamped).
      exists k. split; [exact Hk|].
      rewrite Hstamped in Hlook. destruct (heap w !! l); [|discriminate].
      injection Hlook as <-. reflexivity.
  - unfold bulks_sent. rewrite save_after_stamping, stamp_off. cbn zeta. cbn [snd].
    split.
    + apply sent_after.
      destruct (es_bulk P (env w) _) as [[response|error] e2]; reflexivity.
    + destruct (es_bulk P (env w) _) as [[response|error] e2]; reflexivity.
Qed.

Lemma save_stamps_indexedAt_witness :
  heap (snd (save scripted [0; 1] true true (two_activities []))) !! 1
  = Some (set_indexedAt 1700000000001 (activity "a2" 1700000200)).
Proof.
  destruct (proj1 (proj2 (proj1 (save_stamps_indexedAt scripted [0; 1] true (two_activities []))))
              1 ltac:(do 2 constructor)) as (k & Hk & Hat & Hstamped).
  rewrite Hstamped.
  destruct k as [|[|k]]; [discriminate Hat| |cbn in Hk; lia].
  reflexivity.
Defined.

(** C9 (amended): when the bulk call of [save] returns a response that
    reports errors, [save] returns normally in both modes; it logs one
    error line ("save activities errors") when [upsert] is set and
    nothing when it is not. *)
Theorem save_partial_failure (P : Platform) activities upsert overrideIndexedAt
    (w : World P) response e2 :
  es_bulk P (env (snd (stamp P activities overrideIndexedAt w)))
    (save_request P activities upsert (snd (stamp P activities overrideIndexedAt w)))
  = (Return response, e2) ->
  errors response = true ->
  fst (save P activities upsert overrideIndexedAt w) = Return tt
  /\ logged P (save P activities upsert overrideIndexedAt) w
     = if upsert then [mkLog log_error "save" "save activities errors"] else [].
Proof.
  intros Hbulk Herrors.
  destruct (stamp_returns P activities overrideIndexedAt w) as (_ & _ & _ & Hlogs).
  rewrite save_after_stamping. cbn zeta. rewrite Hbulk, Herrors. cbn.
  split; [reflexivity|]. unfold logged. apply sent_after.
  rewrite save_after_stamping. cbn zeta. rewrite Hbulk, Herrors. cbn.
  rewrite Hlogs. reflexivity.
Qed.

Lemma save_partial_failure_witness :
  fst (save scripted [0; 1] true true (two_activities [partial_failure])) = Return tt
  /\ logged scripted (save scripted [0; 1] true true) (two_activities [partial_failure])
     = [mkLog log_error "save" "save activities errors"].
Proof.
  exact (save_partial_failure scripted [0; 1] true true (two_activities [partial_failure])
           (mkBulkResponse true [updated; rejected])
           (mkScripted [] [] 1700000000002) eq_refl eq_refl).
Defined.

(** C9 as stated fails: in create mode a response that reports errors
    leaves no line in the log. *)
Lemma save_create_mode_counterexample :
  fst (save scripted [0; 1] false true (two_activities [partial_failure])) = Return tt
  /\ bulks_sent scripted (save scripted [0; 1] false true) (two_activities [partial_failure])
     <> []
  /\ logged scripted (save scripted [0; 1] false true) (two_activities [partial_failure]) = [].
Proof. split; [|split]; vm_compute; [reflexivity|discriminate|reflexivity]. Qed.

(** ** Propagation of denormalized fields *)

Lemma flat_map_map {A B C : Type} (f : B -> list C) (g : A -> B) (xs : list A) :
  flat_map f (map g xs) = flat_map (fun x => f (g x)) xs.
Proof. induction xs as [|x xs IH]; cbn; [reflexivity|]. rewrite IH. reflexivity. Qed.

Section Propagation.
Context (P : Platform).

(** Enter one of the four functions up to the answer of the scan. *)
Ltac enter_call call w :=
  destruct call; cbn [propagate];
  unfold updateActivitiesMissingCollection, updateActivitiesCollection,
    updateActivitiesTokenMetadata, updateActivitiesCollectionMetadata,
    scan, try_catch;
  unfold bind at 1; cbn [scan_query scan_debug];
  destruct (_search P _ 0 _ w) as [[esResult|error] w1].

(** Continue up to the answer of the bulk update; [no_candidates] closes
    the case of an empty scan. *)
Ltac enter_bulk esResult w1 no_candidates :=
  rewrite length_map, flat_map_map;
  destruct (0 <? length (hits esResult))%nat; [|no_candidates];
  unfold bind, elasticsearch_bulk, bulk_update;
  cbn [update_index update_script fst snd];
  destruct (es_bulk P (env w1) _) as [[response|error] e2].

Ltac by_classification :=
  cbn [fst];
  match goal with
  | |- context [retryableError ?e] => destruct (retryableError e); reflexivity
  end.

Ltac by_response :=
  cbn [fst];
  match goal with
  | |- context [errors ?r] => destruct (errors r); reflexivity
  end.

(** The result of a propagation call, case by case. *)
Lemma propagate_result call (w : World P) :
  fst (propagate P call w) =
  match scan P call w with
  | (Throw error, _) => if retryableError error then Return true else Throw error
  | (Return esResult, w1) =>
      if (0 <? length (hits esResult))%nat then
        match fst (es_bulk P (env w1) (bulk_update P call (hits esResult))) with
        | Throw error => if retryableError error then Return true else Throw error
        | Return response =>
            Return (if errors response
                    then existsb status_not_400 (items response)
                    else (length (hits esResult) =? 1000)%nat)
        end
      else Return false
  end.
Proof.
  enter_call call w; try by_classification.
  all: enter_bulk esResult w1 ltac:(reflexivity); try by_classification; by_response.
Qed.

(** The bulk requests of a propagation call: none, or the one update of
    the scanned hits. *)
Lemma propagate_bulks call (w : World P) :
  bulks_sent P (propagate P call) w =
  match scan P call w with
  | (Throw _, _) => []
  | (Return esResult, _) =>
      if (0 <? length (hits esResult))%nat
      then [bulk_update P call (hits esResult)]
      else []
  end.
Proof.
  unfold bulks_sent. apply sent_after.
  pose proof (_search_sends P (scan_params (scan_query call)) 0 (scan_debug call) w)
    as (_ & _ & _ & _ & Hbulks).
  revert Hbulks. enter_call call w.
  all: cbn [snd]; intros <-.
  all: try (destruct (retryableError error); cbn; rewrite app_nil_r; reflexivity).
  all: enter_bulk esResult w1 ltac:(cbn; rewrite app_nil_r; reflexivity).
  all: try by_classification; by_response.
Qed.

(** A propagation call sends no search of its own besides its scan. *)
Lemma propagate_searches call (w : World P) :
  searches_sent P (propagate P call) w = searches_sent P (scan P call) w.
Proof.
  unfold searches_sent. f_equal.
  enter_call call w; cbn [snd].
  all: try (destruct (retryableError error); reflexivity).
  all: rewrite length_map, flat_map_map;
    destruct (0 <? length (hits esResult))%nat; [|reflexivity];
    unfold bind, elasticsearch_bulk; cbn [fst snd];
    destruct (es_bulk P (env w1) _) as [[response|error] e2]; cbn [fst snd].
  all: try (destruct (retryableError error); reflexivity).
  all: destruct (errors response); reflexivity.
Qed.

Lemma scan_sends call (w : World P) :
  exists n, 1 <= n /\
    searches_sent P (scan P call) w
    = replicate n (search_request P (scan_params (scan_query call))).
Proof.
  destruct (_search_sends P (scan_params (scan_query call)) 0 (scan_debug call) w)
    as (n & Hn & Hsent & _).
  exists n. split; [exact Hn|]. unfold searches_sent, scan. apply sent_after. exact Hsent.
Qed.

(** Every request of the scan asks for the [id] field of at most 1000
    documents. *)
Lemma scan_requests call (w : World P) :
  Forall
    (fun request =>
       p_source (r_params request) = Some ["id"] /\ p_size (r_params request) = Some 1000%Z)
    (searches_sent P (scan P call) w).
Proof.
  destruct (_search_sends P (scan_params (scan_query call)) 0 (scan_debug call) w)
    as (n & _ & Hsent & _).
  unfold searches_sent, scan. rewrite Hsent, drop_app_length.
  apply Forall_replicate. split; reflexivity.
Qed.

(** Three of the four cases address each update to the index of its hit. *)
Lemma update_index_of_hit call hit :
  (forall contract tokenId collection, call <> MissingCollection contract tokenId collection) ->
  update_index P call hit = _index hit.
Proof. destruct call; intros Hcall; [exfalso; eapply Hcall|..]; reflexivity. Qed.
End Propagation.

Lemma positive_length {A : Type} (xs : list A) : xs <> [] -> (0 <? length xs)%nat = true.
Proof. destruct xs; [contradiction|reflexivity]. Qed.

(** C1 (amended): when the scan of a propagation call finds candidates and
    the bulk update returns a response, keepGoing is, if the response
    reports errors, whether some item of the response has an update status
    other than 400, and otherwise whether exactly 1000 candidates were
    found; so without errors 1000 candidates give true and 999 give
    false. *)
Theorem propagate_keepGoing (P : Platform) call (w w1 : World P) esResult response e2 :
  scan P call w = (Return esResult, w1) ->
  hits esResult <> [] ->
  es_bulk P (env w1) (bulk_update P call (hits esResult)) = (Return response, e2) ->
  fst (propagate P call w)
  = Return (if errors response
            then existsb status_not_400 (items response)
            else (length (hits esResult) =? 1000)%nat)
  /\ (errors response = false -> length (hits esResult) = 1000 ->
      fst (propagate P call w) = Return true)
  /\ (errors response = false -> length (hits esResult) = 999 ->
      fst (propagate P call w) = Return false).
Proof.
  intros Hscan Hfound Hbulk.
  assert (Hresult : fst (propagate P call w)
                    = Return (if errors response
                              then existsb status_not_400 (items response)
                              else (length (hits esResult) =? 1000)%nat)).
  { rewrite propagate_result, Hscan, (positive_length _ Hfound), Hbulk. reflexivity. }
  split; [exact Hresult|].
  split; intros Hclean Hcount; rewrite Hresult, Hclean, Hcount; reflexivity.
Qed.

Lemma propagate_keepGoing_witness :
  fst (propagate scripted refresh_blue_chips (script [found 1000] [])) = Return true
  /\ fst (propagate scripted refresh_blue_chips (script [found 999] [])) = Return false.
Proof.
  split.
  - refine (proj1 (proj2 (propagate_keepGoing scripted refresh_blue_chips
                            (script [found 1000] [])
                            (snd (scan scripted refresh_blue_chips (script [found 1000] [])))
                            (mkSearchResponse 3
                               (replicate 1000 (hit_in generation_1 "a1" 1700000100)))
                            (mkBulkResponse false []) (mkScripted [] [] 1700000000000)
                            _ _ _)) eq_refl _).
    + vm_compute. reflexivity.
    + discriminate.
    + reflexivity.
    + apply length_replicate.
  - refine (proj2 (proj2 (propagate_keepGoing scripted refresh_blue_chips
                            (script [found 999] [])
                            (snd (scan scripted refresh_blue_chips (script [found 999] [])))
                            (mkSearchResponse 3
                               (replicate 999 (hit_in generation_1 "a1" 1700000100)))
                            (mkBulkResponse false []) (mkScripted [] [] 1700000000000)
                            _ _ _)) eq_refl _).
    + vm_compute. reflexivity.
    + discriminate.
    + reflexivity.
    + apply length_replicate.
Defined.

(** C1 as stated fails in both directions.  Two candidates, one updated
    and one rejected with status 400: no error item has another status and
    the candidates are not 1000, yet keepGoing is true.  A thousand
    candidates, all rejected with status 400: exactly 1000 candidates were
    found, yet keepGoing is false. *)
Lemma keepGoing_counterexample :
  (fst (propagate scripted refresh_blue_chips
          (script [found 2] [Return (mkBulkResponse true [updated; rejected])]))
   = Return true
   /\ stated_keepGoing (mkBulkResponse true [updated; rejected]) 2 = false)
  /\ (fst (propagate scripted refresh_blue_chips
             (script [found 1000] [Return (mkBulkResponse true (replicate 1000 rejected))]))
      = Return false
      /\ stated_keepGoing (mkBulkResponse true (replicate 1000 rejected)) 1000 = true).
Proof. split; split; vm_compute; reflexivity. Qed.

(** The scan itself never raises an error classified as retryable: the
    retry wrapper absorbs those, and its terminal error is not one. *)
Lemma scan_raises_fatal (P : Platform) call (w w1 : World P) error :
  scan P call w = (Throw error, w1) -> retryableError error = false.
Proof.
  intros Hscan.
  apply (_search_throws_fatal P (scan_params (scan_query call)) 0 (scan_debug call) w).
  unfold scan in Hscan. rewrite Hscan. reflexivity.
Qed.

(** C7 (amended): when the bulk update of a propagation call raises an
    error, the call returns keepGoing = true if the error is classified as
    retryable and rethrows it otherwise.  An error raised by the scan is
    never classified as retryable and is always rethrown: the scan runs
    through [_search], which retries the transient failures of the store
    itself, and at a store that fails every search with a retryable error
    the call throws "Could not perform search." instead of returning
    keepGoing = true. *)
Theorem propagate_error_handling (P : Platform) call (w : World P) :
  (forall esResult w1 error e2,
     scan P call w = (Return esResult, w1) ->
     hits esResult <> [] ->
     es_bulk P (env w1) (bulk_update P call (hits esResult)) = (Throw error, e2) ->
     fst (propagate P call w) = if retryableError error then Return true else Throw error)
  /\ (forall error w1,
        scan P call w = (Throw error, w1) ->
        retryableError error = false /\ fst (propagate P call w) = Throw error)
  /\ (always_transient P ->
      fst (propagate P call w) = Throw (Error "Could not perform search.")).
Proof.
  split; [|split].
  - intros esResult w1 error e2 Hscan Hfound Hbulk.
    rewrite propagate_result, Hscan, (positive_length _ Hfound), Hbulk. reflexivity.
  - intros error w1 Hscan.
    pose proof (scan_raises_fatal P call w w1 error Hscan) as Hfatal.
    split; [exact Hfatal|]. rewrite propagate_result, Hscan, Hfatal. reflexivity.
  - intros Hstore.
    destruct (_search_exhausts P (scan_params (scan_query call)) 0 (scan_debug call) w Hstore)
      as [Hthrow _]; [lia|].
    rewrite propagate_result. unfold scan.
    destruct (_search P _ 0 _ w) as [c w1]. cbn in Hthrow. subst c. reflexivity.
Qed.

Lemma propagate_error_handling_witness :
  fst (propagate scripted refresh_blue_chips (script [found 1] [Throw aborted])) = Return true
  /\ fst (propagate scripted refresh_blue_chips (script [found 1] [Throw node_not_connected]))
     = Return true
  /\ fst (propagate scripted refresh_blue_chips (script [found 1] [Throw parsing_exception]))
     = Throw parsing_exception
  /\ fst (propagate scripted refresh_blue_chips (script [Throw parsing_exception] []))
     = Throw parsing_exception
  /\ fst (propagate (unavailable aborted) refresh_blue_chips (outage aborted))
     = Throw (Error "Could not perform search.").
Proof.
  split; [|split; [|split; [|split]]].
  - refine (proj1 (propagate_error_handling scripted refresh_blue_chips _)
              one_hit _ aborted (mkScripted [] [] 1700000000000) _ _ _);
      [vm_compute; reflexivity|discriminate|reflexivity].
  - refine (proj1 (propagate_error_handling scripted refresh_blue_chips _)
              one_hit _ node_not_connected (mkScripted [] [] 1700000000000) _ _ _);
      [vm_compute; reflexivity|discriminate|reflexivity].
  - refine (proj1 (propagate_error_handling scripted refresh_blue_chips _)
              one_hit _ parsing_exception (mkScripted [] [] 1700000000000) _ _ _);
      [vm_compute; reflexivity|discriminate|reflexivity].
  - refine (proj2 (proj1 (proj2 (propagate_error_handling scripted refresh_blue_chips _))
                     parsing_exception _ _));
      vm_compute; reflexivity.
  - exact (proj2 (proj2 (propagate_error_handling (unavailable aborted) refresh_blue_chips
                           (outage aborted)))
             (unavailable_always_transient aborted eq_refl)).
Defined.

(** C7 as stated fails for the scan.  At a store that aborts every search
    (an error classified as retryable) the call throws "Could not perform
    search." instead of returning keepGoing = true; and when the store
    aborts the first search and then answers without a hit, the call returns
    keepGoing = false. *)
Lemma propagate_scan_failure_counterexample :
  (es_search (unavailable aborted) tt
     (search_request (unavailable aborted) (scan_params (scan_query refresh_blue_chips)))
   = (Throw aborted, tt)
   /\ retryableError aborted = true
   /\ fst (propagate (unavailable aborted) refresh_blue_chips (outage aborted))
      = Throw (Error "Could not perform search."))
  /\ fst (propagate scripted refresh_blue_chips (script [Throw aborted; found 0] []))
     = Return false.
Proof. split; [split; [|split]|]; vm_compute; reflexivity. Qed.


(** The reassignment case, for comparison, filters on the contract and
    token it is given. *)
Lemma collection_query_filters_given_token contract tokenId newCollection :
  path ["bool"; "must"] (collection_query contract tokenId newCollection)
  = Some (JArr [q_term "contract" (JStr (toLowerCase contract));
                q_term "token.id" (JStr tokenId)]).
Proof. reflexivity. Qed.

(** C5 (violated by the code): whatever contract and token id
    [updateActivitiesTokenMetadata] is given, the query of every scan
    request it sends filters on one fixed contract and one fixed token id. *)
Theorem token_metadata_scan_fixed_pair (P : Platform) contract tokenId tokenData
    (w : World P) :
  searches_sent P (updateActivitiesTokenMetadata P contract tokenId tokenData) w <> []
  /\ Forall
       (fun request =>
          exists query,
            p_query (r_params request) = Some query
            /\ path ["bool"; "filter"; "bool"; "must"] query
               = Some (JArr [q_term "contract" (JStr fixed_contract);
                             q_term "token.id" (JStr fixed_tokenId)]))
       (searches_sent P (updateActivitiesTokenMetadata P contract tokenId tokenData) w).
Proof.
  change (updateActivitiesTokenMetadata P contract tokenId tokenData)
    with (propagate P (TokenMetadata contract tokenId tokenData)).
  rewrite propagate_searches.
  destruct (scan_sends P (TokenMetadata contract tokenId tokenData) w) as (n & Hn & ->).
  split; [destruct n; [lia|discriminate]|].
  apply Forall_replicate. eexists. split; reflexivity.
Qed.

(** Asked to refresh token 1 of 0xABCDEF, the scan looks for token 7514
    of the fixed contract. *)
Lemma token_metadata_scan_failing_input :
  map (fun request =>
         p_query (r_params request) ≫= path ["bool"; "filter"; "bool"; "must"])
    (searches_sent scripted (propagate scripted refresh_token) (script [] []))
  = [Some (JArr [q_term "contract" (JStr "0xb76fbbb30e31f2c3bdaa2466cfb1cfe39b220d06");
                 q_term "token.id" (JStr "7514")])].
Proof. vm_compute. reflexivity. Qed.

(** Reassignment, token metadata and collection metadata address each
    update to the index of its hit. *)
Lemma update_addresses_hit_index (P : Platform) call (w w1 : World P) esResult :
  (forall contract tokenId collection, call <> MissingCollection contract tokenId collection) ->
  scan P call w = (Return esResult, w1) ->
  hits esResult <> [] ->
  exists request,
    bulks_sent P (propagate P call) w = [request]
    /\ b_body request
       = flat_map
           (fun hit =>
              [LAction (mkBulkAction op_update (_index hit) (id (_source hit)) (Some 3%nat));
               update_script call])
           (hits esResult).
Proof.
  intros Hcall Hscan Hfound. exists (bulk_update P call (hits esResult)).
  rewrite propagate_bulks, Hscan, (positive_length _ Hfound).
  split; [reflexivity|].
  unfold bulk_update. cbn [b_body]. apply flat_map_ext. intros hit.
  rewrite (update_index_of_hit P call hit Hcall). reflexivity.
Qed.

(** C6 (violated by the code): when its scan finds candidates,
    [updateActivitiesMissingCollection] sends one bulk request in which
    every update is addressed to the alias [INDEX_NAME], whatever index the
    hit was found in. *)
Theorem missing_collection_update_addresses_alias (P : Platform) contract tokenId collection
    (w w1 : World P) esResult :
  scan P (MissingCollection contract tokenId collection) w = (Return esResult, w1) ->
  hits esResult <> [] ->
  exists request,
    bulks_sent P (updateActivitiesMissingCollection P contract tokenId collection) w
    = [request]
    /\ b_body request
       = flat_map
           (fun hit =>
              [LAction (mkBulkAction op_update (INDEX_NAME P) (id (_source hit)) (Some 3%nat));
               LScript set_collection_script (set_collection_params collection)])
           (hits esResult).
Proof.
  intros Hscan Hfound.
  exists (bulk_update P (MissingCollection contract tokenId collection) (hits esResult)).
  change (updateActivitiesMissingCollection P contract tokenId collection)
    with (propagate P (MissingCollection contract tokenId collection)).
  rewrite propagate_bulks, Hscan, (positive_length _ Hfound). split; reflexivity.
Qed.

Lemma missing_collection_update_addresses_alias_witness :
  _index (hit_in generation_1 "a1" 1700000100) = "mainnet.activities-1690000000000"
  /\ exists request,
       bulks_sent scripted (updateActivitiesMissingCollection scripted "0xABC" 7 blue_chips)
         (script [found 1] [])
       = [request]
       /\ b_body request
          = [LAction (mkBulkAction op_update "mainnet.activities" "a1" (Some 3%nat));
             LScript set_collection_script (set_collection_params blue_chips)].
Proof.
  split; [reflexivity|].
  exact (missing_collection_update_addresses_alias scripted "0xABC" 7 blue_chips
           (script [found 1] [])
           (snd (scan scripted backfill_blue_chips (script [found 1] [])))
           (mkSearchResponse 3 [hit_in generation_1 "a1" 1700000100])
           eq_refl ltac:(discriminate)).
Defined.

(** * Further properties *)

(** ** The retry wrapper *)

Section RetryWrapper.
Context (P : Platform).

Lemma _search_recovers_from debug answer e' : forall k params retries (w : World P),
  recovers P k (env w) (search_request P params) answer e' ->
  k + retries <= 4 ->
  fst (_search P params retries debug w) = Return answer
  /\ env (snd (_search P params retries debug w)) = e'
  /\ searches (snd (_search P params retries debug w))
     = searches w ++ replicate (S k) (search_request P params)
  /\ logs (snd (_search P params retries debug w))
     = logs w ++ replicate k (mkLog log_warn "_search" "Retrying...")
       ++ (if (0 <? k + retries)%nat || debug then [mkLog log_info "_search" ""] else []).
Proof.
  induction k as [|k IH]; intros params retries w Hstore Hbudget.
  - cbn in Hstore. rewrite _search_attempt, Hstore. cbn zeta.
    change (0 + retries) with retries.
    destruct ((0 <? retries)%nat || debug); cbn; rewrite ?app_nil_r; auto.
  - destruct Hstore as (error & e1 & Hfail & Hretry & Hrest).
    rewrite _search_attempt, Hfail. cbn zeta. rewrite Hretry.
    replace (retries <=? 3)%nat with true by (symmetry; apply Nat.leb_le; lia).
    match goal with
    | |- context [_search P _ _ _ ?w2] =>
        destruct (IH (default_track_total_hits params) (retries + 1) w2)
          as (Hret & Henv & Hsent & Hlogs); [exact Hrest|lia|]
    end.
    rewrite Hret, Henv, Hsent, Hlogs, search_request_idem. cbn [searches logs].
    replace (k + (retries + 1)) with (S k + retries) by lia.
    rewrite <- !app_assoc. auto.
Qed.
End RetryWrapper.

(** X1: when the store fails the first [k] attempts (at most four) with
    retryable errors and then answers, [_search] returns that answer after
    exactly [k + 1] attempts; it logs one warning per failed attempt, and
    one info line if there was a retry or [debug] is set. *)
Theorem _search_recovers (P : Platform) params debug (w : World P) k answer e' :
  recovers P k (env w) (search_request P params) answer e' ->
  k <= 4 ->
  fst (_search P params 0 debug w) = Return answer
  /\ searches_sent P (_search P params 0 debug) w = replicate (S k) (search_request P params)
  /\ logged P (_search P params 0 debug) w
     = replicate k (mkLog log_warn "_search" "Retrying...")
       ++ (if (0 <? k)%nat || debug then [mkLog log_info "_search" ""] else []).
Proof.
  intros Hstore Hk.
  destruct (_search_recovers_from P debug answer e' k params 0 w Hstore)
    as (Hret & _ & Hsent & Hlogs); [lia|].
  rewrite Nat.add_0_r in Hlogs.
  split; [exact Hret|]. split.
  - unfold searches_sent. apply sent_after. exact Hsent.
  - unfold logged. apply sent_after. exact Hlogs.
Qed.

Lemma _search_recovers_witness :
  fst (_search scripted (scan_params JNull) 0 false
         (script [Throw aborted; Throw node_not_connected; Return one_hit] []))
  = Return one_hit
  /\ length (searches_sent scripted (_search scripted (scan_params JNull) 0 false)
               (script [Throw aborted; Throw node_not_connected; Return one_hit] [])) = 3.
Proof.
  destruct (_search_recovers scripted (scan_params JNull) false
              (script [Throw aborted; Throw node_not_connected; Return one_hit] [])
              2 one_hit (mkScripted [] [] 1700000000000)) as (Hret & Hsent & _).
  - cbn. eexists _, _. split; [reflexivity|]. split; [reflexivity|].
    eexists _, _. split; [reflexivity|]. split; reflexivity.
  - lia.
  - split; [exact Hret|]. rewrite Hsent. reflexivity.
Defined.

Lemma _search_sends_bounded (P : Platform) params retries debug (w : World P) :
  exists n : nat,
    1 <= n <= Nat.max 1 (5 - retries)
    /\ searches (snd (_search P params retries debug w))
       = searches w ++ replicate n (search_request P params)
    /\ bulks (snd (_search P params retries debug w)) = bulks w
    /\ heap (snd (_search P params retries debug w)) = heap w.
Proof.
  funelim (_search P params retries debug w).
  rewrite Heqcall. clear Heqcall. rename H into IH.
  rewrite _search_attempt.
  destruct (es_search P (env w) _) as [[esResult|error] e]; cbn zeta.
  - exists 1. destruct ((0 <? retries)%nat || debug); cbn; repeat split; auto; lia.
  - destruct (retryableError error); [|exists 1; cbn; repeat split; auto; lia].
    destruct (retries <=? 3)%nat eqn:Hle; [|exists 1; cbn; repeat split; auto; lia].
    apply Nat.leb_le in Hle.
    match goal with
    | |- context [_search P _ _ _ ?w2] =>
        destruct (IH (Throw error) w2 error (Return tt) w2 Hle) as (n & Hn & Hs & Hb & Hh)
    end.
    exists (S n). rewrite Hs, Hb, Hh. cbn.
    rewrite <- app_assoc. repeat split; auto; lia.
Qed.

(** X2: whatever the store does, a call of [_search] sends the same
    request at least once and at most [5 - retries] times (once if
    [retries] is 4 or more), sends no bulk request and leaves the heap as it
    is. *)
Theorem _search_attempts (P : Platform) params retries debug (w : World P) :
  exists n : nat,
    1 <= n <= Nat.max 1 (5 - retries)
    /\ searches_sent P (_search P params retries debug) w
       = replicate n (search_request P params)
    /\ bulks_sent P (_search P params retries debug) w = []
    /\ heap (snd (_search P params retries debug w)) = heap w.
Proof.
  destruct (_search_sends_bounded P params retries debug w) as (n & Hn & Hs & Hb & Hh).
  exists n. split; [exact Hn|]. split; [|split; [|exact Hh]].
  - unfold searches_sent. apply sent_after. exact Hs.
  - unfold bulks_sent. apply sent_after. rewrite Hb, app_nil_r. reflexivity.
Qed.

(** X3: an error thrown by [_search] is never classified as retryable:
    it is the terminal error, or an error the store itself reported for
    this request. *)
Theorem _search_throws (P : Platform) params retries debug (w : World P) error :
  fst (_search P params retries debug w) = Throw error ->
  retryableError error = false
  /\ (error = Error "Could not perform search."
      \/ exists e e', es_search P e (search_request P params) = (Throw error, e')).
Proof.
  funelim (_search P params retries debug w).
  rewrite Heqcall. clear Heqcall. rename H into IH.
  rewrite _search_attempt.
  destruct (es_search P (env w) _) as [[esResult|error0] e] eqn:Hstore; cbn zeta.
  - destruct ((0 <? retries)%nat || debug); cbn; discriminate.
  - destruct (retryableError error0) eqn:Hr.
    + destruct (retries <=? 3)%nat eqn:Hle.
      * apply Nat.leb_le in Hle. intros Hthrow.
        eapply (IH (Throw error0) w error0 (Return tt)); eauto.
      * cbn. intros [= <-]. split; [reflexivity|left; reflexivity].
    + cbn. intros [= <-]. split; [exact Hr|]. right. eauto.
Qed.

Lemma _search_throws_witness :
  retryableError parsing_exception = false
  /\ (parsing_exception = Error "Could not perform search."
      \/ exists e e',
           es_search (unavailable parsing_exception) e
             (search_request (unavailable parsing_exception) (scan_params JNull))
           = (Throw parsing_exception, e')).
Proof.
  exact (_search_throws (unavailable parsing_exception) (scan_params JNull) 0 false
           (outage parsing_exception) parsing_exception eq_refl).
Defined.

(** ** search: continuations *)

(** X4: a continuation the decoder rejects makes [search] throw the
    decoder's error before anything happens: no request is sent, nothing is
    logged, the world is unchanged. *)
Theorem search_rejects_continuation (P : Platform) params debug (w : World P) c error :
  continuation params = Some c ->
  c <> "" ->
  truthy_bool (continuationAsInt params) = false ->
  splitContinuation P c = Throw error ->
  search P params debug w = (Throw error, w).
Proof.
  intros Hc Hnonempty HasInt Hsplit.
  unfold search, bind, search_searchAfter, lift. rewrite Hc, HasInt. cbn.
  destruct c; [contradiction|]. cbn. rewrite Hsplit. reflexivity.
Qed.

Lemma search_rejects_continuation_witness :
  search picky legacy_page false picky_start = (Throw (Error "Invalid continuation"), picky_start).
Proof.
  apply (search_rejects_continuation picky legacy_page false picky_start "1700000100");
    [reflexivity|discriminate|reflexivity|reflexivity].
Defined.

(** [_search] only ever adds to the log. *)
Lemma _search_logs (P : Platform) params retries debug (w : World P) :
  exists more, logs (snd (_search P params retries debug w)) = logs w ++ more.
Proof.
  funelim (_search P params retries debug w).
  rewrite Heqcall. clear Heqcall. rename H into IH.
  rewrite _search_attempt.
  destruct (es_search P (env w) _) as [[esResult|error] e]; cbn zeta.
  - destruct ((0 <? retries)%nat || debug); cbn; [eauto|exists []; apply eq_sym, app_nil_r].
  - destruct (retryableError error); [|cbn; eauto].
    destruct (retries <=? 3)%nat eqn:Hle; [|cbn; rewrite <- app_assoc; eauto].
    apply Nat.leb_le in Hle.
    match goal with
    | |- context [_search P _ _ _ ?w2] =>
        destruct (IH (Throw error) w2 error (Return tt) w2 Hle) as (more & ->)
    end.
    cbn. rewrite <- app_assoc. eauto.
Qed.

(** X5: when the retry wrapper throws, [search] adds one error line on
    topic "search" to what the wrapper logged and rethrows the same error,
    which is never a retryable one. *)
Theorem search_rethrows (P : Platform) params debug (w : World P) searchAfter error :
  fst (search_searchAfter P params w) = Return searchAfter ->
  fst (_search P (search_params params searchAfter) 0 debug w) = Throw error ->
  fst (search P params debug w) = Throw error
  /\ retryableError error = false
  /\ logged P (search P params debug) w
     = logged P (_search P (search_params params searchAfter) 0 debug) w
       ++ [mkLog log_error "search" ""].
Proof.
  intros Hdecode Hthrow.
  pose proof (_search_throws_fatal P _ _ _ _ _ Hthrow) as Hfatal.
  unfold logged. rewrite (search_after_decoding P _ _ _ _ Hdecode).
  assert (Hgrow : exists more, logs (snd (_search P (search_params params searchAfter) 0 debug w))
                               = logs w ++ more).
  { apply _search_logs. }
  destruct Hgrow as [more Hmore].
  destruct (_search P _ 0 debug w) as [[esResult|error'] w1]; [discriminate|].
  cbn in Hthrow, Hmore |- *. injection Hthrow as ->.
  split; [reflexivity|]. split; [exact Hfatal|].
  rewrite Hmore, <- app_assoc, !drop_app_length. reflexivity.
Qed.

Lemma search_rethrows_witness :
  fst (search scripted first_page false (script [Throw parsing_exception] []))
  = Throw parsing_exception
  /\ logged scripted (search scripted first_page false) (script [Throw parsing_exception] [])
     = [mkLog log_error "_search" "Unexpected error."; mkLog log_error "search" ""].
Proof.
  destruct (search_rethrows scripted first_page false (script [Throw parsing_exception] [])
              [] parsing_exception eq_refl eq_refl) as (Hthrow & _ & Hlogged).
  split; [exact Hthrow|]. rewrite Hlogged. reflexivity.
Defined.

Lemma rev_app_append a : forall b s, (String.rev_app a b +:+ s) = String.rev_app a (b +:+ s).
Proof. induction a as [|c a IH]; intros b s; cbn; [reflexivity|]. apply IH. Qed.

Lemma append_empty s : (s +:+ "") = s.
Proof.
  induction s as [|c s IH]; [reflexivity|].
  change (String c s +:+ "") with (String c (s +:+ "")). f_equal. exact IH.
Qed.

(** A piece without separator is read up to the next separator. *)
Lemma split_go_piece sep rest piece : forall acc,
  free_of sep piece = true ->
  split_go sep acc (piece +:+ String sep rest)
  = (String.rev_app acc "" +:+ piece) :: split_go sep "" rest.
Proof.
  induction piece as [|c piece IH]; intros acc Hfree.
  - rewrite append_empty. change ("" +:+ String sep rest) with (String sep rest).
    cbn [split_go]. rewrite Ascii.eqb_refl. reflexivity.
  - cbn in Hfree. apply andb_prop in Hfree as [Hc Hfree].
    apply negb_true_iff in Hc.
    change (String c piece +:+ String sep rest) with (String c (piece +:+ String sep rest)).
    cbn [split_go]. rewrite Hc, (IH _ Hfree), !rev_app_append. reflexivity.
Qed.

Lemma split_go_last sep piece : forall acc,
  free_of sep piece = true ->
  split_go sep acc piece = [String.rev_app acc "" +:+ piece].
Proof.
  induction piece as [|c piece IH]; intros acc Hfree.
  - rewrite append_empty. reflexivity.
  - cbn in Hfree. apply andb_prop in Hfree as [Hc Hfree].
    apply negb_true_iff in Hc. cbn [split_go].
    rewrite Hc, (IH _ Hfree), !rev_app_append. reflexivity.
Qed.

Lemma split_concat pieces :
  pieces <> [] ->
  Forall (fun piece => free_of "_" piece = true) pieces ->
  split_go "_" "" (String.concat "_" pieces) = pieces.
Proof.
  induction pieces as [|piece pieces IH]; intros Hne Hfree; [contradiction|].
  apply Forall_cons in Hfree as [Hpiece Hpieces].
  destruct pieces as [|piece' pieces].
  - exact (split_go_last _ _ _ Hpiece).
  - change (String.concat "_" (piece :: piece' :: pieces))
      with (piece +:+ String "_" (String.concat "_" (piece' :: pieces))).
    rewrite (split_go_piece _ _ _ _ Hpiece). f_equal.
    apply IH; [discriminate|exact Hpieces].
Qed.

(** Splitting on "_" undoes joining with "_", for a non-empty tuple whose
    rendered values contain no underscore. *)
Lemma split_join vs :
  vs <> [] ->
  Forall (fun v => free_of "_" (sort_value_string v) = true) vs ->
  lodash_split (Some (join "_" vs)) "_" = map sort_value_string vs.
Proof.
  intros Hne Hfree.
  change (lodash_split (Some (join "_" vs)) "_")
    with (split_go "_" "" (String.concat "_" (map sort_value_string vs))).
  apply split_concat.
  - destruct vs; [contradiction|discriminate].
  - apply Forall_map. exact Hfree.
Qed.

(** X6: the continuation of a full page leads back to its last hit.  If
    the hit's sort tuple is not empty, none of its rendered values contains
    an underscore, and the decoder returns what [buildContinuation] was
    given, whole, then the call that carries the continuation of the page
    sends only requests that resume after that sort tuple. *)
Theorem search_resumes_after_last_hit (P : Platform) params debug (w : World P)
    hits lastResult :
  truthy_bool (continuationAsInt params) = false ->
  limit params = Some (Z.of_nat (length hits)) ->
  last hits = Some lastResult ->
  sort lastResult <> [] ->
  Forall (fun v => free_of "_" (sort_value_string v) = true) (sort lastResult) ->
  buildContinuation P (join "_" (sort lastResult)) <> "" ->
  splitContinuation P (buildContinuation P (join "_" (sort lastResult)))
  = Return [join "_" (sort lastResult)] ->
  searches_sent P
    (search P (with_continuation (search_continuation P params hits) params) debug) w <> []
  /\ Forall
       (fun request =>
          p_search_after (r_params request) = Some (map sort_value_string (sort lastResult)))
       (searches_sent P
          (search P (with_continuation (search_continuation P params hits) params) debug) w).
Proof.
  intros HasInt Hfull Hlast Hne Hfree Hbuilt Hcodec.
  assert (Hc : search_continuation P params hits
               = Some (buildContinuation P (join "_" (sort lastResult)))).
  { unfold search_continuation, page_is_full.
    rewrite bool_decide_eq_true_2 by exact Hfull. rewrite Hlast, HasInt. reflexivity. }
  rewrite Hc.
  assert (Hdecode : fst (search_searchAfter P
                           (with_continuation
                              (Some (buildContinuation P (join "_" (sort lastResult)))) params) w)
                    = Return (map sort_value_string (sort lastResult))).
  { unfold search_searchAfter, bind, lift. cbn [continuation continuationAsInt with_continuation].
    rewrite HasInt.
    destruct (buildContinuation P (join "_" (sort lastResult))) eqn:Hb; [contradiction|].
    cbn. rewrite Hcodec. cbn [fst head].
    rewrite (split_join _ Hne Hfree). reflexivity. }
  destruct (search_sends P _ debug w _ Hdecode) as (n & Hn & ->).
  split; [destruct n; [lia|discriminate]|].
  apply Forall_replicate. cbn.
  destruct (sort lastResult); [contradiction|reflexivity].
Qed.

Lemma search_resumes_after_last_hit_witness :
  Forall
    (fun request => p_search_after (r_params request) = Some ["1700000100"; "a1"])
    (searches_sent scripted
       (search scripted
          (with_continuation
             (search_continuation scripted first_page
                (replicate 2 (hit_in generation_1 "a1" 1700000100)))
             first_page) false)
       (script [] [])).
Proof.
  exact (proj2 (search_resumes_after_last_hit scripted first_page false (script [] [])
                  (replicate 2 (hit_in generation_1 "a1" 1700000100))
                  (hit_in generation_1 "a1" 1700000100)
                  eq_refl eq_refl eq_refl ltac:(discriminate)
                  ltac:(repeat constructor) ltac:(discriminate) eq_refl)).
Defined.

(** ** search: the filter *)












(** ** save, continued *)

Section IndexWriterMore.
Context (P : Platform).

(** Stamping never changes the key of an object. *)
Lemma stamp_keeps_id activities overrideIndexedAt (w : World P) (l : nat) :
  id <$> heap (snd (stamp P activities overrideIndexedAt w)) !! l = id <$> heap w !! l.
Proof.
  destruct overrideIndexedAt; [|reflexivity].
  destruct (stamp_all P activities w) as (_ & _ & _ & _ & _ & Hheap).
  destruct (decide (l ∈ activities)) as [Hin|Hout].
  - destruct (proj2 (Hheap l) Hin) as (k & _ & _ & Hstamped).
    etrans; [exact (f_equal (fmap id) Hstamped)|].
    destruct (heap w !! l); reflexivity.
  - exact (f_equal (fmap id) (proj1 (Hheap l) Hout)).
Qed.

Lemma actions_save_body upsert docs :
  actions (save_body P upsert docs)
  = map (fun d => mkBulkAction (if upsert then op_index else op_create) (INDEX_NAME P) (id d) None)
      docs.
Proof.
  unfold save_body. induction docs as [|d docs IH]; cbn; [reflexivity|]. f_equal. exact IH.
Qed.

Lemma length_save_body upsert docs : length (save_body P upsert docs) = 2 * length docs.
Proof.
  unfold save_body. induction docs as [|d docs IH]; cbn; [reflexivity|]. rewrite IH. lia.
Qed.

Lemma omap_live {A : Type} (h : gmap nat A) (ls : list nat) :
  (forall l : nat, l ∈ ls -> is_Some (h !! l)) ->
  length (omap (fun l => h !! l) ls) = length ls.
Proof.
  induction ls as [|l ls IH]; intros Hlive; [reflexivity|]. cbn.
  destruct (Hlive l) as [a ->]; [constructor|]. cbn. f_equal.
  apply IH. intros l' Hin. apply Hlive. constructor. exact Hin.
Qed.

Lemma omap_ids (h h' : gmap nat ActivityDocument) (ls : list nat) :
  (forall l : nat, id <$> h' !! l = id <$> h !! l) ->
  map id (omap (fun l => h' !! l) ls) = map id (omap (fun l => h !! l) ls).
Proof.
  intros Hid. induction ls as [|l ls IH]; [reflexivity|]. cbn.
  specialize (Hid l). destruct (h' !! l), (h !! l); try discriminate; cbn; [|exact IH].
  injection Hid as ->. f_equal. exact IH.
Qed.
End IndexWriterMore.

(** X9: when every reference of the batch is live, the bulk write of
    [save] has two lines per activity and one action per activity, in the
    order of the batch; each action is addressed to the alias, is an index
    action in upsert mode and a create action otherwise, and carries the
    id the object had before the call: stamping never changes a key. *)
Theorem save_actions (P : Platform) activities upsert overrideIndexedAt (w : World P) :
  (forall l : nat, l ∈ activities -> is_Some (heap w !! l)) ->
  exists request,
    bulks_sent P (save P activities upsert overrideIndexedAt) w = [request]
    /\ length (b_body request) = 2 * length activities
    /\ actions (b_body request)
       = map (fun i => mkBulkAction (if upsert then op_index else op_create)
                                    (INDEX_NAME P) i None)
           (map id (omap (fun l => heap w !! l) activities)).
Proof.
  intros Hlive.
  exists (save_request P activities upsert (snd (stamp P activities overrideIndexedAt w))).
  destruct (stamp_returns P activities overrideIndexedAt w) as (_ & _ & Hbulks & _).
  split; [|split].
  - unfold bulks_sent. apply sent_after. rewrite save_after_stamping. cbn zeta.
    rewrite <- Hbulks. destruct (es_bulk P _ _) as [[response|error] e2]; reflexivity.
  - unfold save_request. cbn [b_body]. rewrite length_save_body. f_equal.
    apply omap_live. intros l Hin.
    pose proof (stamp_keeps_id P activities overrideIndexedAt w l) as Hid.
    destruct (Hlive l Hin) as [a Ha]. rewrite Ha in Hid.
    destruct (heap (snd (stamp P activities overrideIndexedAt w)) !! l); [eauto|discriminate].
  - unfold save_request. cbn [b_body]. rewrite actions_save_body.
    etrans;
      [symmetry;
       apply (map_map id (fun i => mkBulkAction (if upsert then op_index else op_create)
                                                (INDEX_NAME P) i None))|].
    f_equal. apply omap_ids. intros l. apply stamp_keeps_id.
Qed.

Lemma save_actions_witness :
  exists request,
    bulks_sent scripted (save scripted [0; 1] false true) (two_activities []) = [request]
    /\ actions (b_body request)
       = [mkBulkAction op_create "mainnet.activities" "a1" None;
          mkBulkAction op_create "mainnet.activities" "a2" None].
Proof.
  destruct (save_actions scripted [0; 1] false true (two_activities []))
    as (request & Hsent & _ & Hactions).
  - intros l Hin.
    apply elem_of_cons in Hin as [->|Hin]; [eexists; reflexivity|].
    apply elem_of_cons in Hin as [->|Hin]; [eexists; reflexivity|].
    inversion Hin.
  - exists request. split; [exact Hsent|]. rewrite Hactions. reflexivity.
Defined.

(** X10: when the bulk call of [save] throws, [save] logs one error line
    and rethrows the same error; with [overrideIndexedAt] set the objects
    of the batch stay stamped although nothing was written. *)
Theorem save_rethrows (P : Platform) activities upsert (w : World P) error e2 :
  es_bulk P (env (snd (stamp P activities true w)))
    (save_request P activities upsert (snd (stamp P activities true w)))
  = (Throw error, e2) ->
  fst (save P activities upsert true w) = Throw error
  /\ logged P (save P activities upsert true) w
     = [mkLog log_error "save" ("error saving activities. error=" +:+ toString error)]
  /\ forall l : nat, l ∈ activities ->
       exists k, k < length activities
         /\ heap (snd (save P activities upsert true w)) !! l
            = set_indexedAt (reading P k (env w)) <$> heap w !! l.
Proof.
  intros Hbulk.
  destruct (stamp_all P activities w) as (_ & _ & _ & _ & Hlogs & Hheap).
  unfold logged. rewrite save_after_stamping. cbn zeta. rewrite Hbulk. cbn [fst snd logs heap].
  split; [reflexivity|]. split.
  - apply sent_after. rewrite Hlogs. reflexivity.
  - intros l Hin. destruct (proj2 (Hheap l) Hin) as (k & Hk & _ & Hstamped). eauto.
Qed.

Lemma save_rethrows_witness :
  fst (save scripted [0; 1] true true (two_activities [Throw parsing_exception]))
  = Throw parsing_exception
  /\ logged scripted (save scripted [0; 1] true true)
       (two_activities [Throw parsing_exception])
     = [mkLog log_error "save"
          "error saving activities. error=ResponseError: x_content_parse_exception"]
  /\ indexedAt <$> heap (snd (save scripted [0; 1] true true
                                (two_activities [Throw parsing_exception]))) !! 0
     = Some (Some 1700000000000%Z).
Proof.
  destruct (save_rethrows scripted [0; 1] true (two_activities [Throw parsing_exception])
              parsing_exception (mkScripted [] [] 1700000000002) eq_refl)
    as (Hthrow & Hlogged & Hheap).
  split; [exact Hthrow|]. split; [rewrite Hlogged; reflexivity|].
  destruct (Hheap 0 ltac:(constructor)) as (k & Hk & Hstamped).
  vm_compute. reflexivity.
Defined.

(** X11: [save] does not look at the size of the batch: an empty batch
    is still written, as one bulk request with an empty body, and [save]
    returns or throws as the store answers it. *)
Theorem save_empty_batch (P : Platform) upsert overrideIndexedAt (w : World P) :
  bulks_sent P (save P [] upsert overrideIndexedAt) w = [mkBulkRequest [] None []]
  /\ fst (save P [] upsert overrideIndexedAt w)
     = match fst (es_bulk P (env w) (mkBulkRequest [] None [])) with
       | Return _ => Return tt
       | Throw error => Throw error
       end.
Proof.
  assert (Hstamp : stamp P [] overrideIndexedAt w = (Return tt, w))
    by (destruct overrideIndexedAt; reflexivity).
  unfold bulks_sent. rewrite save_after_stamping, Hstamp. cbn zeta. cbn [snd].
  change (save_request P [] upsert w) with (mkBulkRequest [] None []).
  destruct (es_bulk P (env w) _) as [[response|error] e2]; cbn [fst snd bulks];
    rewrite drop_app_length; auto.
Qed.

(** ** Propagation, continued *)

Section PropagationMore.
Context (P : Platform).

Ltac enter_call call w :=
  destruct call; cbn [propagate];
  unfold updateActivitiesMissingCollection, updateActivitiesCollection,
    updateActivitiesTokenMetadata, updateActivitiesCollectionMetadata,
    scan, try_catch;
  unfold bind at 1; cbn [scan_query scan_debug];
  destruct (_search P _ 0 _ w) as [[esResult|error] w1].

(** A propagation call never writes to the heap. *)
Lemma propagate_heap call (w : World P) : heap (snd (propagate P call w)) = heap w.
Proof.
  pose proof (_search_sends P (scan_params (scan_query call)) 0 (scan_debug call) w)
    as (_ & _ & _ & Hheap & _).
  revert Hheap. enter_call call w; cbn [snd]; intros <-.
  all: try (destruct (retryableError error); reflexivity).
  all: rewrite length_map, flat_map_map;
    destruct (0 <? length (hits esResult))%nat; [|reflexivity];
    unfold bind, elasticsearch_bulk; cbn [fst snd];
    destruct (es_bulk P (env w1) _) as [[response|error] e2]; cbn [fst snd].
  all: try (destruct (retryableError error); reflexivity).
  all: destruct (errors response); reflexivity.
Qed.

(** A scan without candidates ends the call there. *)
Lemma propagate_nothing_found call (w w1 : World P) esResult :
  scan P call w = (Return esResult, w1) ->
  hits esResult = [] ->
  propagate P call w = (Return false, w1).
Proof.
  intros Hscan Hnone. revert Hscan.
  destruct call; cbn [propagate];
    unfold updateActivitiesMissingCollection, updateActivitiesCollection,
      updateActivitiesTokenMetadata, updateActivitiesCollectionMetadata, scan, try_catch;
    unfold bind at 1; cbn [scan_query scan_debug]; intros ->;
    rewrite length_map, Hnone; reflexivity.
Qed.

Lemma length_bulk_update call hits :
  length (b_body (bulk_update P call hits)) = 2 * length hits.
Proof.
  unfold bulk_update. cbn [b_body].
  induction hits as [|hit hits IH]; cbn; [reflexivity|]. rewrite IH. lia.
Qed.
End PropagationMore.

(** X12: a propagation call whose scan finds no candidate returns
    keepGoing = false right after the scan: it sends no bulk request and
    changes nothing beyond what the scan did. *)
Theorem propagate_without_candidates (P : Platform) call (w w1 : World P) esResult :
  scan P call w = (Return esResult, w1) ->
  hits esResult = [] ->
  propagate P call w = (Return false, w1)
  /\ bulks_sent P (propagate P call) w = [].
Proof.
  intros Hscan Hnone. split; [exact (propagate_nothing_found P call w w1 esResult Hscan Hnone)|].
  rewrite propagate_bulks, Hscan, Hnone. reflexivity.
Qed.

Lemma propagate_without_candidates_witness :
  fst (propagate scripted refresh_blue_chips (script [found 0] [])) = Return false
  /\ bulks_sent scripted (propagate scripted refresh_blue_chips) (script [found 0] []) = [].
Proof.
  destruct (propagate_without_candidates scripted refresh_blue_chips (script [found 0] [])
              (snd (scan scripted refresh_blue_chips (script [found 0] [])))
              (mkSearchResponse 3 []) eq_refl eq_refl) as [Hresult Hbulks].
  split; [rewrite Hresult; reflexivity|exact Hbulks].
Defined.

(** X13: at a store that fails every search with a retryable error, a
    propagation call does not return keepGoing = true: after the five
    attempts of its scan it throws "Could not perform search.", having sent
    no bulk request. *)
Theorem propagate_during_outage (P : Platform) call (w : World P) :
  always_transient P ->
  fst (propagate P call w) = Throw (Error "Could not perform search.")
  /\ length (searches_sent P (propagate P call) w) = 5
  /\ bulks_sent P (propagate P call) w = [].
Proof.
  intros Hstore.
  destruct (_search_exhausts P (scan_params (scan_query call)) 0 (scan_debug call) w Hstore)
    as [Hthrow Hsent]; [lia|].
  assert (Hscan : exists w1, scan P call w = (Throw (Error "Could not perform search."), w1)).
  { unfold scan. destruct (_search P _ 0 _ w) as [c w1]. cbn in Hthrow. subst c. eauto. }
  destruct Hscan as [w1 Hscan].
  split; [|split].
  - rewrite propagate_result, Hscan. reflexivity.
  - rewrite propagate_searches. unfold searches_sent, scan.
    rewrite Hsent, drop_app_length. apply length_replicate.
  - rewrite propagate_bulks, Hscan. reflexivity.
Qed.

Lemma propagate_during_outage_witness :
  fst (propagate (unavailable aborted) refresh_blue_chips (outage aborted))
  = Throw (Error "Could not perform search.").
Proof.
  exact (proj1 (propagate_during_outage (unavailable aborted) refresh_blue_chips
                  (outage aborted) (unavailable_always_transient aborted eq_refl))).
Defined.

(** X14: whatever the store does, a propagation call sends at most one
    bulk request, made of two lines (an action and a script) per hit of the
    scan, and it never writes to the heap of activity objects. *)
Theorem propagate_footprint (P : Platform) call (w : World P) :
  heap (snd (propagate P call w)) = heap w
  /\ (bulks_sent P (propagate P call) w = []
      \/ exists esResult w1,
           scan P call w = (Return esResult, w1)
           /\ hits esResult <> []
           /\ bulks_sent P (propagate P call) w = [bulk_update P call (hits esResult)]
           /\ length (b_body (bulk_update P call (hits esResult)))
              = 2 * length (hits esResult)).
Proof.
  split; [apply propagate_heap|].
  rewrite propagate_bulks.
  destruct (scan P call w) as [[esResult|error] w1] eqn:Hscan; [|left; reflexivity].
  destruct (hits esResult) as [|hit rest] eqn:Hhits; [left; reflexivity|].
  right. exists esResult, w1. rewrite Hhits.
  split; [reflexivity|]. split; [discriminate|]. split; [reflexivity|].
  apply length_bulk_update.
Qed.

(** ** Deletion *)

Section DeletionFacts.
Context (P : Platform).

(** [deleteActivitiesByBlockHash], spelled out on the answers of the
    store. *)
Lemma deleteActivitiesByBlockHash_result blockHash (w : World P) :
  fst (deleteActivitiesByBlockHash P blockHash w) =
  match block_scan P blockHash w with
  | (Throw error, _) => if retryableError error then Return true else Throw error
  | (Return esResult, w1) =>
      if (0 <? length (hits esResult))%nat then
        match fst (es_bulk P (env w1) (bulk_delete (hits esResult))) with
        | Throw error => if retryableError error then Return true else Throw error
        | Return response =>
            Return (if errors response
                    then existsb status_not_400 (items response)
                    else (length (hits esResult) =? 1000)%nat)
        end
      else Return false
  end.
Proof.
  unfold deleteActivitiesByBlockHash, block_scan, try_catch. unfold bind at 1.
  destruct (_search P _ 0 false w) as [[esResult|error] w1];
    [|destruct (retryableError error); reflexivity].
  rewrite length_map, flat_map_map.
  destruct (0 <? length (hits esResult))%nat; [|reflexivity].
  unfold bind, elasticsearch_bulk, bulk_delete. cbn [fst snd].
  replace (flat_map _ (hits esResult))
    with (map (fun hit => LAction (mkBulkAction op_delete (_index hit) (id (_source hit)) None))
            (hits esResult))
    by (induction (hits esResult) as [|hit rest IH]; cbn; [reflexivity|]; f_equal; exact IH).
  destruct (es_bulk P (env w1) _) as [[response|error] e2]; cbn [fst];
    [destruct (errors response); reflexivity|destruct (retryableError error); reflexivity].
Qed.

(** No item of a delete response is an update with status 400. *)
Lemma delete_items_not_400 (response_items : list BulkItem) :
  response_items <> [] ->
  Forall (fun item => i_op item = op_delete) response_items ->
  existsb status_not_400 response_items = true.
Proof.
  destruct response_items as [|item rest]; [contradiction|].
  intros _ Hdelete. apply Forall_cons in Hdelete as [Hitem _].
  cbn. unfold status_not_400, update_status. rewrite Hitem. reflexivity.
Qed.
End DeletionFacts.

(** X15: [deleteActivitiesById] sends exactly one bulk request and no
    search: one delete action per given id, in the given order, duplicates
    included, each addressed to the alias.  A response that reports errors
    does not make it throw: it logs one warning and returns; only a failure
    of the bulk call itself is logged as an error and rethrown. *)
Theorem deleteActivitiesById_outcome (P : Platform) ids (w : World P) :
  bulks_sent P (deleteActivitiesById P ids) w
  = [mkBulkRequest
       (map (fun i => LAction (mkBulkAction op_delete (INDEX_NAME P) i None)) ids) None []]
  /\ searches_sent P (deleteActivitiesById P ids) w = []
  /\ match fst (es_bulk P (env w)
                  (mkBulkRequest
                     (map (fun i => LAction (mkBulkAction op_delete (INDEX_NAME P) i None)) ids)
                     None [])) with
     | Return response =>
         fst (deleteActivitiesById P ids w) = Return tt
         /\ logged P (deleteActivitiesById P ids) w
            = if errors response then [mkLog log_warn "delete-by-id-conflicts" ""] else []
     | Throw error =>
         fst (deleteActivitiesById P ids w) = Throw error
         /\ logged P (deleteActivitiesById P ids) w = [mkLog log_error "delete-by-id-error" ""]
     end.
Proof.
  unfold bulks_sent, searches_sent, logged, deleteActivitiesById, try_catch, bind,
    elasticsearch_bulk.
  destruct (es_bulk P (env w) _) as [[response|error] e2]; cbn [fst snd].
  - destruct (errors response); cbn;
      rewrite ?drop_app_length, ?drop_all; auto.
  - cbn. rewrite ?drop_app_length, ?drop_all. auto.
Qed.

(** X16: in [deleteActivitiesByBlockHash] the test for status 400 looks
    at the update result of each item, and the items of a delete response
    have none: when the scan finds candidates and the response reports
    errors, keepGoing is true whatever the statuses of its (delete) items,
    400 included. *)
Theorem deleteActivitiesByBlockHash_on_errors (P : Platform) blockHash (w w1 : World P)
    esResult response e2 :
  block_scan P blockHash w = (Return esResult, w1) ->
  hits esResult <> [] ->
  es_bulk P (env w1) (bulk_delete (hits esResult)) = (Return response, e2) ->
  errors response = true ->
  items response <> [] ->
  Forall (fun item => i_op item = op_delete) (items response) ->
  fst (deleteActivitiesByBlockHash P blockHash w) = Return true.
Proof.
  intros Hscan Hfound Hbulk Herrors Hitems Hdelete.
  rewrite deleteActivitiesByBlockHash_result, Hscan, (positive_length _ Hfound), Hbulk.
  cbn [fst]. rewrite Herrors, (delete_items_not_400 _ Hitems Hdelete). reflexivity.
Qed.

Lemma deleteActivitiesByBlockHash_on_errors_witness :
  fst (deleteActivitiesByBlockHash scripted "0xb10c"
         (script [found 1] [Return (mkBulkResponse true [delete_rejected])]))
  = Return true.
Proof.
  apply (deleteActivitiesByBlockHash_on_errors scripted "0xb10c" _
           (snd (block_scan scripted "0xb10c"
                   (script [found 1] [Return (mkBulkResponse true [delete_rejected])])))
           one_hit (mkBulkResponse true [delete_rejected]) (mkScripted [] [] 1700000000000)).
  - reflexivity.
  - discriminate.
  - reflexivity.
  - reflexivity.
  - discriminate.
  - repeat constructor.
Defined.

(** X17: when the scan of [deleteActivitiesByBlockHash] finds candidates
    and the response reports no error, keepGoing tells whether exactly 1000
    candidates were found; a scan without candidates gives false; and
    whatever the try block raises gives true if it is classified as
    retryable and is rethrown otherwise. *)
Theorem deleteActivitiesByBlockHash_keepGoing (P : Platform) blockHash (w w1 : World P)
    esResult :
  block_scan P blockHash w = (Return esResult, w1) ->
  (hits esResult = [] -> fst (deleteActivitiesByBlockHash P blockHash w) = Return false)
  /\ (forall response e2,
        hits esResult <> [] ->
        es_bulk P (env w1) (bulk_delete (hits esResult)) = (Return response, e2) ->
        errors response = false ->
        fst (deleteActivitiesByBlockHash P blockHash w)
        = Return (length (hits esResult) =? 1000)%nat)
  /\ (forall error e2,
        hits esResult <> [] ->
        es_bulk P (env w1) (bulk_delete (hits esResult)) = (Throw error, e2) ->
        fst (deleteActivitiesByBlockHash P blockHash w)
        = if retryableError error then Return true else Throw error).
Proof.
  intros Hscan. split; [|split].
  - intros Hnone. rewrite deleteActivitiesByBlockHash_result, Hscan, Hnone. reflexivity.
  - intros response e2 Hfound Hbulk Hclean.
    rewrite deleteActivitiesByBlockHash_result, Hscan, (positive_length _ Hfound), Hbulk.
    cbn [fst]. rewrite Hclean. reflexivity.
  - intros error e2 Hfound Hbulk.
    rewrite deleteActivitiesByBlockHash_result, Hscan, (positive_length _ Hfound), Hbulk.
    reflexivity.
Qed.

Lemma deleteActivitiesByBlockHash_keepGoing_witness :
  fst (deleteActivitiesByBlockHash scripted "0xb10c"
         (script [found 1000] [Return (mkBulkResponse false [])]))
  = Return true
  /\ fst (deleteActivitiesByBlockHash scripted "0xb10c" (script [found 1] [Throw aborted]))
     = Return true.
Proof.
  split.
  - refine (proj1 (proj2 (deleteActivitiesByBlockHash_keepGoing scripted "0xb10c"
                            (script [found 1000] [Return (mkBulkResponse false [])])
                            (snd (block_scan scripted "0xb10c"
                                    (script [found 1000] [Return (mkBulkResponse false [])])))
                            (mkSearchResponse 3
                               (replicate 1000 (hit_in generation_1 "a1" 1700000100)))
                            _))
              (mkBulkResponse false []) (mkScripted [] [] 1700000000000) _ _ eq_refl).
    + vm_compute. reflexivity.
    + discriminate.
    + reflexivity.
  - refine (proj2 (proj2 (deleteActivitiesByBlockHash_keepGoing scripted "0xb10c"
                            (script [found 1] [Throw aborted])
                            (snd (block_scan scripted "0xb10c"
                                    (script [found 1] [Throw aborted])))
                            one_hit _))
              aborted (mkScripted [] [] 1700000000000) _ _).
    + reflexivity.
    + discriminate.
    + reflexivity.
Defined.

(** ** initIndex *)

Lemma field_set_field_ne key key' value fields :
  key' <> key -> field key' (JObj (set_field key value fields)) = field key' (JObj fields).
Proof.
  intros Hne. cbn. induction fields as [|[k v] fields IH]; cbn.
  - destruct (String.eqb_spec key key'); [congruence|reflexivity].
  - destruct (String.eqb_spec k key) as [->|Hk]; cbn.
    + destruct (String.eqb_spec key key'); [congruence|reflexivity].
    + destruct (String.eqb_spec k key'); [reflexivity|exact IH].
Qed.

(** Spreading a configuration over an object leaves alone the keys the
    configuration does not have. *)
Lemma field_spread key config : forall base,
  Forall (fun kv => fst kv <> key) (default [] config) ->
  field key (JObj (spread base config)) = field key (JObj base).
Proof.
  unfold spread. induction (default [] config) as [|[k v] extra IH]; intros base Hfree;
    [reflexivity|].
  apply Forall_cons in Hfree as [Hk Hfree]. cbn [fold_left fst snd].
  rewrite (IH _ Hfree). apply field_set_field_ne. cbn in Hk. congruence.
Qed.

(** X18: when the alias does not resolve and the configuration has no
    [index] or [aliases] entry of its own, [initIndex] creates one index
    named after the alias and the current time in milliseconds, with the
    alias pointing at it in the same request, and then, once the creation
    has returned, queues the backfill job; these are its only management
    calls besides the existence check. *)
Theorem initIndex_creates (P : Platform) (L : Lifecycle P) (s : Admin P) e1 now e2 e3 e4 :
  indices_exists L (env (world s)) (INDEX_NAME P) = (Return false, e1) ->
  new_Date P e1 = (now, e2) ->
  indices_create L e2 (create_params P L now) = (Return tt, e3) ->
  backfill_addToQueue L e3 = (Return tt, e4) ->
  plain_config (CONFIG L (default "CONFIG_DEFAULT" (settings_configName L))) ->
  fst (initIndex P L s) = Return tt
  /\ admin_calls (initIndex P L) s
     = [call_exists (INDEX_NAME P); call_create (create_params P L now); call_addToQueue]
  /\ field "index" (create_params P L now)
     = Some (JStr (INDEX_NAME P +:+ "-" +:+ decimal now))
  /\ field "aliases" (create_params P L now) = Some (obj1 (INDEX_NAME P) (JObj [])).
Proof.
  intros Hexists Hnow Hcreate Hqueue Hplain.
  unfold admin_calls, initIndex, try_catchA, bindA, admin, in_world, logger, Date_now.
  cbn [world calls env heap searches bulks logs fst snd].
  rewrite Hexists. cbn [world calls env heap searches bulks logs fst snd].
  rewrite Hnow. cbn [world calls env heap searches bulks logs fst snd].
  rewrite Hcreate. cbn [world calls env heap searches bulks logs fst snd].
  rewrite Hqueue. cbn [world calls env heap searches bulks logs fst snd].
  split; [reflexivity|]. split; [rewrite <- !app_assoc, drop_app_length; reflexivity|].
  unfold create_params. split.
  - rewrite field_spread; [reflexivity|].
    eapply Forall_impl; [exact Hplain|]. intros kv [_ H]. exact H.
  - rewrite field_spread; [reflexivity|].
    eapply Forall_impl; [exact Hplain|]. intros kv [H _]. exact H.
Qed.

Lemma initIndex_creates_witness :
  admin_calls (initIndex scripted (cluster false (Return tt) false only_default)) boot
  = [call_exists "mainnet.activities";
     call_create (create_params scripted (cluster false (Return tt) false only_default)
                    1700000000000);
     call_addToQueue]
  /\ field "index" (create_params scripted (cluster false (Return tt) false only_default)
                      1700000000000)
     = Some (JStr "mainnet.activities-1700000000000").
Proof.
  destruct (initIndex_creates scripted (cluster false (Return tt) false only_default) boot
              (mkScripted [] [] 1700000000000) 1700000000000
              (mkScripted [] [] 1700000000001) (mkScripted [] [] 1700000000001)
              (mkScripted [] [] 1700000000001) eq_refl eq_refl eq_refl eq_refl)
    as (_ & Hcalls & Hindex & _).
  - repeat constructor; discriminate.
  - split; [exact Hcalls|]. rewrite Hindex. reflexivity.
Defined.

(** X19: when the creation of the index throws, [initIndex] does not
    queue the backfill job: it logs the error and rethrows it. *)
Theorem initIndex_create_fails (P : Platform) (L : Lifecycle P) (s : Admin P)
    e1 now e2 error e3 :
  indices_exists L (env (world s)) (INDEX_NAME P) = (Return false, e1) ->
  new_Date P e1 = (now, e2) ->
  indices_create L e2 (create_params P L now) = (Throw error, e3) ->
  fst (initIndex P L s) = Throw error
  /\ admin_calls (initIndex P L) s
     = [call_exists (INDEX_NAME P); call_create (create_params P L now)]
  /\ last (logs (world (snd (initIndex P L s)))) = Some (mkLog log_error "initIndex" "Error.").
Proof.
  intros Hexists Hnow Hcreate.
  unfold admin_calls, initIndex, try_catchA, bindA, admin, in_world, logger, Date_now, throwA.
  cbn [world calls env heap searches bulks logs fst snd].
  rewrite Hexists. cbn [world calls env heap searches bulks logs fst snd].
  rewrite Hnow. cbn [world calls env heap searches bulks logs fst snd].
  rewrite Hcreate. cbn [world calls env heap searches bulks logs fst snd].
  split; [reflexivity|]. split; [rewrite <- !app_assoc, drop_app_length; reflexivity|].
  apply last_snoc.
Qed.

Lemma initIndex_create_fails_witness :
  fst (initIndex scripted (cluster false (Throw parsing_exception) false only_default) boot)
  = Throw parsing_exception
  /\ admin_calls (initIndex scripted (cluster false (Throw parsing_exception) false only_default))
       boot
     = [call_exists "mainnet.activities";
        call_create (create_params scripted
                       (cluster false (Throw parsing_exception) false only_default)
                       1700000000000)].
Proof.
  destruct (initIndex_create_fails scripted
              (cluster false (Throw parsing_exception) false only_default) boot
              (mkScripted [] [] 1700000000000) 1700000000000
              (mkScripted [] [] 1700000000001) parsing_exception
              (mkScripted [] [] 1700000000001) eq_refl eq_refl eq_refl)
    as (Hthrow & Hcalls & _).
  split; [exact Hthrow|exact Hcalls].
Defined.

(** X20: when the alias resolves and mapping updates are not disabled,
    [initIndex] asks the store which index the alias stands for and sends
    the [mappings.properties] of the configuration to the first index of the
    answer, not to the alias; it creates no index and queues no backfill.
    With mapping updates disabled it does nothing after the existence
    check. *)
Theorem initIndex_existing (P : Platform) (L : Lifecycle P) (s : Admin P) e1 :
  indices_exists L (env (world s)) (INDEX_NAME P) = (Return true, e1) ->
  (settings_disableMappingsUpdate L = true ->
   fst (initIndex P L s) = Return tt
   /\ admin_calls (initIndex P L) s = [call_exists (INDEX_NAME P)])
  /\ (forall indexes e2 config mappings e3,
        settings_disableMappingsUpdate L = false ->
        indices_get L e1 (INDEX_NAME P) = (Return indexes, e2) ->
        CONFIG L (default "CONFIG_DEFAULT" (settings_configName L)) = Some config ->
        field "mappings" (JObj config) = Some (JObj mappings) ->
        indices_putMapping L e2 (head indexes) (field "properties" (JObj mappings))
        = (Return tt, e3) ->
        fst (initIndex P L s) = Return tt
        /\ admin_calls (initIndex P L) s
           = [call_exists (INDEX_NAME P); call_get (INDEX_NAME P);
              call_putMapping (head indexes) (field "properties" (JObj mappings))]).
Proof.
  intros Hexists. split.
  - intros Hdisabled.
    unfold admin_calls, initIndex, try_catchA, bindA, admin, in_world, logger.
    cbn [world calls env heap searches bulks logs fst snd].
    rewrite Hexists, Hdisabled. cbn [world calls env heap searches bulks logs fst snd].
    split; [reflexivity|apply drop_app_length].
  - intros indexes e2 config mappings e3 Henabled Hget Hconfig Hmappings Hput.
    unfold admin_calls, initIndex, try_catchA, bindA, admin, in_world, logger, lift.
    cbn [world calls env heap searches bulks logs fst snd].
    rewrite Hexists, Henabled. cbn [world calls env heap searches bulks logs fst snd].
    rewrite Hget, Hconfig. cbn [world calls env heap searches bulks logs fst snd fmap
                                  option_fmap option_map member].
    rewrite Hmappings. cbn [world calls env heap searches bulks logs fst snd member].
    rewrite Hput. cbn [world calls env heap searches bulks logs fst snd].
    split; [reflexivity|]. rewrite <- !app_assoc. apply drop_app_length.
Qed.

Lemma initIndex_existing_witness :
  admin_calls (initIndex scripted (cluster true (Return tt) true only_default)) boot
  = [call_exists "mainnet.activities"]
  /\ admin_calls (initIndex scripted (cluster true (Return tt) false only_default)) boot
     = [call_exists "mainnet.activities"; call_get "mainnet.activities";
        call_putMapping (Some "mainnet.activities-1690000000000")
          (Some (JObj [("id", obj1 "type" (JStr "keyword"))]))].
Proof.
  split.
  - exact (proj2 (proj1 (initIndex_existing scripted
                           (cluster true (Return tt) true only_default) boot
                           (mkScripted [] [] 1700000000000) eq_refl) eq_refl)).
  - exact (proj2 (proj2 (initIndex_existing scripted
                           (cluster true (Return tt) false only_default) boot
                           (mkScripted [] [] 1700000000000) eq_refl)
                    [generation_1] (mkScripted [] [] 1700000000000) default_config
                    [("dynamic", JStr "false");
                     ("properties", JObj [("id", obj1 "type" (JStr "keyword"))])]
                    (mkScripted [] [] 1700000000000)
                    eq_refl eq_refl eq_refl eq_refl eq_refl)).
Defined.

(** X21: when the alias resolves, mapping updates are not disabled and
    the table has no configuration under the configured name,
    [initIndex] throws a TypeError after asking for the index: no mapping
    request is sent. *)
Theorem initIndex_missing_config (P : Platform) (L : Lifecycle P) (s : Admin P)
    e1 indexes e2 :
  indices_exists L (env (world s)) (INDEX_NAME P) = (Return true, e1) ->
  settings_disableMappingsUpdate L = false ->
  indices_get L e1 (INDEX_NAME P) = (Return indexes, e2) ->
  CONFIG L (default "CONFIG_DEFAULT" (settings_configName L)) = None ->
  fst (initIndex P L s)
  = Throw (TypeError "Cannot read properties of undefined (reading 'mappings')")
  /\ admin_calls (initIndex P L) s = [call_exists (INDEX_NAME P); call_get (INDEX_NAME P)].
Proof.
  intros Hexists Henabled Hget Hconfig.
  unfold admin_calls, initIndex, try_catchA, bindA, admin, in_world, logger, lift, throwA.
  cbn [world calls env heap searches bulks logs fst snd].
  rewrite Hexists, Henabled. cbn [world calls env heap searches bulks logs fst snd].
  rewrite Hget, Hconfig. cbn [world calls env heap searches bulks logs fst snd fmap
                                option_fmap option_map member].
  split; [reflexivity|]. rewrite <- !app_assoc. apply drop_app_length.
Qed.

Lemma initIndex_missing_config_witness :
  fst (initIndex scripted (cluster true (Return tt) false no_config) boot)
  = Throw (TypeError "Cannot read properties of undefined (reading 'mappings')")
  /\ admin_calls (initIndex scripted (cluster true (Return tt) false no_config)) boot
     = [call_exists "mainnet.activities"; call_get "mainnet.activities"].
Proof.
  exact (initIndex_missing_config scripted (cluster true (Return tt) false no_config) boot
           (mkScripted [] [] 1700000000000) [generation_1] (mkScripted [] [] 1700000000000)
           eq_refl eq_refl eq_refl eq_refl).
Defined.

(** X22: whatever the store answers, [initIndex] starts with the
    existence check and then follows one of two paths that never mix:
    (get, then at most one mapping update) or (create, then at most one
    backfill job).  It never creates an index and updates mappings in the
    same call, and never queues the backfill without having created the
    index. *)
Theorem initIndex_paths (P : Platform) (L : Lifecycle P) (s : Admin P) :
  exists rest,
    admin_calls (initIndex P L) s = call_exists (INDEX_NAME P) :: rest
    /\ (rest = []
        \/ rest = [call_get (INDEX_NAME P)]
        \/ (exists index properties,
              rest = [call_get (INDEX_NAME P); call_putMapping index properties])
        \/ (exists params, rest = [call_create params])
        \/ (exists params, rest = [call_create params; call_addToQueue])).
Proof.
  unfold admin_calls, initIndex, try_catchA, bindA, admin, in_world, logger, lift, throwA,
    Date_now.
  cbn [world calls env heap searches bulks logs fst snd].
  destruct (indices_exists L (env (world s)) (INDEX_NAME P)) as [[[|]|error] e1];
    cbn [world calls env heap searches bulks logs fst snd].
  - destruct (settings_disableMappingsUpdate L);
      cbn [world calls env heap searches bulks logs fst snd].
    + eexists. rewrite drop_app_length. split; [reflexivity|]. left. reflexivity.
    + destruct (indices_get L e1 (INDEX_NAME P)) as [[indexes|error] e2];
        cbn [world calls env heap searches bulks logs fst snd].
      * destruct (member _ "mappings") as [mappings|error];
          cbn [world calls env heap searches bulks logs fst snd].
        -- destruct (member mappings "properties") as [properties|error];
             cbn [world calls env heap searches bulks logs fst snd].
           ++ destruct (indices_putMapping L e2 (head indexes) properties)
                as [[[]|error] e3];
                cbn [world calls env heap searches bulks logs fst snd];
                eexists; rewrite <- !app_assoc, drop_app_length;
                (split; [reflexivity|]); right; right; left; eauto.
           ++ eexists. rewrite <- !app_assoc, drop_app_length.
              split; [reflexivity|]. right. left. reflexivity.
        -- eexists. rewrite <- !app_assoc, drop_app_length.
           split; [reflexivity|]. right. left. reflexivity.
      * eexists. rewrite <- !app_assoc, drop_app_length.
        split; [reflexivity|]. right. left. reflexivity.
  - destruct (new_Date P e1) as [now e2];
      cbn [world calls env heap searches bulks logs fst snd].
    destruct (indices_create L e2 _) as [[[]|error] e3];
      cbn [world calls env heap searches bulks logs fst snd].
    + destruct (backfill_addToQueue L e3) as [[[]|error] e4];
        cbn [world calls env heap searches bulks logs fst snd];
        eexists; rewrite <- !app_assoc, drop_app_length;
        (split; [reflexivity|]); right; right; right; right; eauto.
    + eexists. rewrite <- !app_assoc, drop_app_length.
      split; [reflexivity|]. right. right. right. left. eauto.
  - eexists. rewrite drop_app_length. split; [reflexivity|]. left. reflexivity.
Qed.

(** ** getChainStatsFromActivity: the rolling windows *)

Lemma oneDayAgo_bucket now : oneDayAgo now = ((now / 300000 - 288) * 300)%Z.
Proof.
  unfold oneDayAgo.
  replace (now - 24 * 60 * 60 * 1000)%Z with (now + -288 * (5 * 60 * 1000))%Z by lia.
  rewrite Z.div_add by lia.
  replace ((now / (5 * 60 * 1000) + -288) * (5 * 60 * 1000))%Z
    with ((now / 300000 - 288) * 300 * 1000)%Z by (change (5 * 60 * 1000)%Z with 300000%Z; lia).
  apply Z.div_mul. lia.
Qed.

Lemma sevenDaysAgo_bucket now : sevenDaysAgo now = ((now / 300000 - 2016) * 300)%Z.
Proof.
  unfold sevenDaysAgo.
  replace (now - 7 * 24 * 60 * 60 * 1000)%Z with (now + -2016 * (5 * 60 * 1000))%Z by lia.
  rewrite Z.div_add by lia.
  replace ((now / (5 * 60 * 1000) + -2016) * (5 * 60 * 1000))%Z
    with ((now / 300000 - 2016) * 300 * 1000)%Z by (change (5 * 60 * 1000)%Z with 300000%Z; lia).
  apply Z.div_mul. lia.
Qed.

(** X23: the start of the one-day window is a whole number of seconds
    on a five-minute boundary, at most five minutes before the instant one
    day before [now] and never after it; the seven-day window starts
    exactly six days earlier. *)
Theorem chain_stats_windows now :
  (oneDayAgo now mod 300 = 0)%Z
  /\ (oneDayAgo now * 1000 <= now - 86400000 < oneDayAgo now * 1000 + 300000)%Z
  /\ (sevenDaysAgo now = oneDayAgo now - 6 * 86400)%Z.
Proof.
  rewrite oneDayAgo_bucket, sevenDaysAgo_bucket.
  pose proof (Z.div_mod now 300000 ltac:(lia)) as Hdiv.
  pose proof (Z.mod_pos_bound now 300000 ltac:(lia)) as Hmod.
  split; [apply Z.mod_mul; lia|]. split; lia.
Qed.

(** X24: two calls in the same five-minute interval send the same
    queries: the windows, and so the query bodies, depend on [now] only
    through the interval it falls in. *)
Theorem chain_stats_queries_stable now1 now2 :
  (now1 / 300000 = now2 / 300000)%Z ->
  chain_stats_queries now1 = chain_stats_queries now2.
Proof.
  intros Hsame. unfold chain_stats_queries, chain_stats_periods.
  rewrite !oneDayAgo_bucket, !sevenDaysAgo_bucket, Hsame. reflexivity.
Qed.

Lemma chain_stats_queries_stable_witness :
  chain_stats_queries 1700000000000 = chain_stats_queries 1700000099999.
Proof. exact (chain_stats_queries_stable 1700000000000 1700000099999 eq_refl). Defined.

(** ** Propagation: case of the addresses *)


